(** * file_info.py: a shallow embedding and its verified properties

    The development follows [src/file_info.py] function by function.

    - Python integers are [Z]; strings are [string]; lists are [list].
    - The file system is an explicit tree ([node]).  A function of the
      source that takes a path takes here the path and the node that the
      path names; [main] is given the function that resolves a path of the
      command line to what it names.
    - [print] is an output trace, Python exceptions are a result type, and
      the two are threaded by the small monad [M].
    - Doubles: int/int true division and [.1f] formatting are both correctly
      rounded in CPython and are modelled exactly over [Q].  The quotient of
      two [log2] calls is taken over the reals (see [log_index]). *)

From Stdlib Require Import ZArith QArith Qround Qabs List String Ascii Bool Lia Lqa.
From Stdlib Require Import DecimalString.
Import ListNotations.

Local Open Scope string_scope.
Local Open Scope Z_scope.

(** ** Exceptions, results and output *)

Inductive exn : Type :=
| OSError (msg : string)
| TypeError (msg : string)
| IndexError (msg : string)
| KeyError (msg : string)
| ImportError (msg : string)
| UnicodeDecodeError (msg : string).

(** The outcome of a pure but fallible computation. *)
Inductive res (A : Type) : Type :=
| Ret (a : A)
| Raise (e : exn).
Arguments Ret {A} a.
Arguments Raise {A} e.

(** A table cell handed to [tabulate]: a string, an int or [None]. *)
Inductive cell : Type :=
| CStr (s : string)
| CInt (z : Z)
| CNone.

(** What a run writes: a line per [print] call;
    [print(tabulate.tabulate(data, headers=..., tablefmt="simple"))] is kept
    as the data it was given. *)
Inductive event : Type :=
| Stdout (line : string)
| Table (headers : list string) (data : list (list cell)).

(** Output written so far, then a value or the exception in flight. *)
Definition M (A : Type) : Type := (list event * res A)%type.

Definition ret {A} (a : A) : M A := ([], Ret a).
Definition raise {A} (e : exn) : M A := ([], Raise e).
Definition lift {A} (r : res A) : M A := ([], r).
Definition print (line : string) : M unit := ([Stdout line], Ret tt).

Definition bind {A B} (m : M A) (k : A -> M B) : M B :=
  match m with
  | (out, Ret a) => let (out', r) := k a in ((out ++ out')%list, r)
  | (out, Raise e) => (out, Raise e)
  end.

(** [try: body except OSError as e: handler(str(e))]: any other exception
    propagates. *)
Definition try_OSError {A} (body : M A) (handler : string -> M A) : M A :=
  match body with
  | (out, Raise (OSError msg)) => let (out', r) := handler msg in ((out ++ out')%list, r)
  | other => other
  end.

Declare Scope monad_scope.
Delimit Scope monad_scope with monad.
Notation "x <- m ;; k" := (bind m (fun x => k))
  (at level 61, m at next level, right associativity) : monad_scope.
Notation "m ;; k" := (bind m (fun _ => k))
  (at level 61, right associativity) : monad_scope.
Local Open Scope monad_scope.

Definition output {A} (m : M A) : list event := fst m.
Definition outcome {A} (m : M A) : res A := snd m.

(** ** Strings and numbers as Python prints them *)

(** [str(n)] for an int. *)
Definition str_int (n : Z) : string := NilZero.string_of_int (Z.to_int n).

Fixpoint spaces (n : nat) : string :=
  match n with
  | O => ""
  | S k => String " " (spaces k)
  end.

(** [s.ljust(width)] and [s.rjust(width)], the padding of [:<6d] and [:>23d]. *)
Definition ljust (width : nat) (s : string) : string :=
  s ++ spaces (width - String.length s).
Definition rjust (width : nat) (s : string) : string :=
  spaces (width - String.length s) ++ s.

(** [l[i]]: a negative index counts from the end, anything out of range is
    an [IndexError]. *)
Definition getitem {A} (l : list A) (i : Z) : res A :=
  let n := Z.of_nat (List.length l) in
  let j := if i <? 0 then i + n else i in
  if (0 <=? j) && (j <? n)
  then match nth_error l (Z.to_nat j) with
       | Some a => Ret a
       | None => Raise (IndexError "list index out of range")
       end
  else Raise (IndexError "list index out of range").

(** [l1 == l2] on lists of strings. *)
Fixpoint list_eqb (l1 l2 : list string) : bool :=
  match l1, l2 with
  | [], [] => true
  | a :: l1', b :: l2' => String.eqb a b && list_eqb l1' l2'
  | _, _ => false
  end.

(** ** Doubles *)

(** Nearest integer, ties to the even one. *)
Definition round_half_even (q : Q) : Z :=
  let f := Qfloor q in
  match Qcompare (q - inject_Z f) (1 # 2) with
  | Lt => f
  | Gt => f + 1
  | Eq => if Z.even f then f else f + 1
  end.

(** [floor(log2 q)] for a positive rational. *)
Definition Qlog2 (q : Q) : Z :=
  let k := Z.log2 (Qnum q) - Z.log2 (Zpos (Qden q)) in
  if Qle_bool (Qpower 2 k) q then k else k - 1.

(** The binary64 value nearest to a positive rational (53 significant bits,
    round to nearest, ties to even); every quotient formed below lies well
    inside the normal range. *)
Definition to_double (q : Q) : Q :=
  if Qle_bool q 0 then 0
  else
    let e := Qlog2 q - 52 in
    Qred (inject_Z (round_half_even (q / Qpower 2 e)) * Qpower 2 e).

(** [a / b] on two ints: CPython returns the correctly rounded quotient. *)
Definition true_div (a b : Z) : Q := to_double (inject_Z a / inject_Z b).

(** [f"{v:.1f}"] for a non-negative double: the decimal with one fractional
    digit nearest to the exact binary value, ties to even. *)
Definition tenths (v : Q) : Z := round_half_even (v * 10).
Definition format_1f (v : Q) : string :=
  let t := tenths v in
  str_int (t / 10) ++ "." ++ str_int (t mod 10).

(** ** Size Formatter *)

Definition UNITS_1000 : list string := ["B"; "KB"; "MB"; "GB"; "TB"; "PB"; "EB"].
Definition UNITS_1024 : list string := ["B"; "KiB"; "MiB"; "GiB"; "TiB"; "PiB"; "EiB"].

(** [int(log2(size) / log2(base))].  In the source the two logarithms and
    their quotient are doubles; here the quotient is the exact real, whose
    truncation is the number of times [size] can be divided by [base] before
    it drops below [base].  The two agree unless [log_base(size)] lies within
    a rounding error of an integer. *)
Fixpoint log_index_from (fuel : nat) (size base : Z) : Z :=
  match fuel with
  | O => 0
  | S k => if size <? base then 0 else 1 + log_index_from k (size / base) base
  end.

Definition log_index (size base : Z) : Z :=
  log_index_from (Z.to_nat (Z.log2 size)) size base.

Definition calculate_size (size : Z) (units : list string) : res string :=
  if size <=? 0 then Ret "0 B"
  else
    let base := if list_eqb units UNITS_1000 then 1000 else 1024 in
    let i := log_index size base in
    let value := format_1f (true_div size (base ^ i)) in
    match getitem units i with
    | Ret unit_name => Ret (value ++ " " ++ unit_name)
    | Raise e => Raise e
    end.

(** ** Time *)

(** [time.struct_time], the fields the program prints. *)
Record struct_time : Type := {
  tm_year : Z; tm_mon : Z; tm_mday : Z;
  tm_hour : Z; tm_min : Z; tm_sec : Z;
  tm_wday : Z
}.

(** Year, month and day of the proleptic Gregorian calendar for a day
    number counted from 1970-01-01. *)
Definition civil_from_days (days : Z) : Z * Z * Z :=
  let z := days + 719468 in
  let era := z / 146097 in
  let doe := z - era * 146097 in
  let yoe := (doe - doe / 1460 + doe / 36524 - doe / 146096) / 365 in
  let doy := doe - (365 * yoe + yoe / 4 - yoe / 100) in
  let mp := (5 * doy + 2) / 153 in
  let d := doy - (153 * mp + 2) / 5 + 1 in
  let m := if mp <? 10 then mp + 3 else mp - 9 in
  let y := yoe + era * 400 in
  (if m <=? 2 then y + 1 else y, m, d).

Definition gmtime (secs : Z) : struct_time :=
  let days := secs / 86400 in
  let rem := secs mod 86400 in
  let '(y, m, d) := civil_from_days days in
  {| tm_year := y; tm_mon := m; tm_mday := d;
     tm_hour := rem / 3600; tm_min := (rem mod 3600) / 60; tm_sec := rem mod 60;
     tm_wday := (days + 3) mod 7 |}.

(** [time.localtime(secs)] in a zone that is [utcoffset secs] seconds east
    of UTC at that instant. *)
Definition localtime (utcoffset : Z -> Z) (secs : Z) : struct_time :=
  gmtime (secs + utcoffset secs).

(** A two-digit field, zero-padded ([%d], [%m], [%H], [%M], [%S]). *)
Definition two_digits (n : Z) : string :=
  if n <? 10 then "0" ++ str_int n else str_int n.

(** [time.strftime("%d %m-%Y %H:%M", t)]. *)
Definition strftime_short (t : struct_time) : string :=
  two_digits (tm_mday t) ++ " " ++ two_digits (tm_mon t) ++ "-" ++ str_int (tm_year t)
  ++ " " ++ two_digits (tm_hour t) ++ ":" ++ two_digits (tm_min t).

Definition day_name (wday : Z) : string :=
  nth (Z.to_nat wday) ["Mon"; "Tue"; "Wed"; "Thu"; "Fri"; "Sat"; "Sun"] "".
Definition month_name (mon : Z) : string :=
  nth (Z.to_nat (mon - 1))
      ["Jan"; "Feb"; "Mar"; "Apr"; "May"; "Jun"; "Jul"; "Aug"; "Sep"; "Oct"; "Nov"; "Dec"] "".

(** [time.asctime(t)]: the day of the month is padded with a space. *)
Definition asctime (t : struct_time) : string :=
  day_name (tm_wday t) ++ " " ++ month_name (tm_mon t) ++ " "
  ++ rjust 2 (str_int (tm_mday t)) ++ " "
  ++ two_digits (tm_hour t) ++ ":" ++ two_digits (tm_min t) ++ ":" ++ two_digits (tm_sec t)
  ++ " " ++ str_int (tm_year t).

(** ** The file system *)

(** [os.stat_result]; the two time stamps are in whole seconds (the fraction
    is dropped by [time.localtime] and [time.ctime] anyway). *)
Record stat_result : Type := {
  st_mode : Z; st_ino : Z; st_uid : Z; st_gid : Z;
  st_size : Z; st_mtime : Z; st_ctime : Z
}.

(** A system call: its value, or [str(e)] of the [OSError] it raises. *)
Inductive attempt (A : Type) : Type :=
| Done (a : A)
| Fails (msg : string).
Arguments Done {A} a.
Arguments Fails {A} msg.

(** Opening a file in text mode and iterating over it: the lines read, an
    [OSError] from [open], or a [UnicodeDecodeError] while decoding. *)
Inductive reading : Type :=
| Lines (ls : list string)
| OpenFails (msg : string)
| DecodeFails (msg : string).

(** What a path names.  A directory carries what [os.scandir] lists, a
    symbolic link the text of the link and what it resolves to.  [Other] is
    a fifo, socket or device.  [Missing] is a path that names nothing (as a
    directory entry: one that is gone by the time it is examined).

    The tree is what the program sees during one run: it does not change
    while the program runs, a listing is either refused when the directory
    is opened or delivered whole, and the type of a listed entry is known
    from the listing, so that the type tests of an entry raise nothing.

    The tree holds what the file system answers.  A path with an embedded
    NUL never reaches it (the calls raise [ValueError] at once, see
    [embedded_nul]), and a tree deeper than the interpreter's recursion
    limit is not told apart from a shallow one. *)
#[local] Unset Elimination Schemes.
Inductive node : Type :=
| Reg (st : attempt stat_result) (content : reading)
| Dir (st : attempt stat_result) (listing : attempt (list (string * node)))
| Link (link_to : string) (target : attempt node)
| Other (st : attempt stat_result) (content : reading)
| Missing.
#[local] Set Elimination Schemes.

(** The text of an [OSError] that names a path shows the path as [repr]
    does; it is written here for a path that [repr] leaves as it is (no
    quote, backslash or control character). *)
Definition enoent (path : string) : string :=
  "[Errno 2] No such file or directory: '" ++ path ++ "'".
Definition enotdir (path : string) : string :=
  "[Errno 20] Not a directory: '" ++ path ++ "'".

(** [os.stat(path)], which follows symbolic links. *)
Fixpoint os_stat (path : string) (n : node) : attempt stat_result :=
  match n with
  | Reg st _ => st
  | Dir st _ => st
  | Other st _ => st
  | Link _ (Done t) => os_stat path t
  | Link _ (Fails msg) => Fails msg
  | Missing => Fails (enoent path)
  end.

(** The node a path finally names once links are followed. *)
Fixpoint resolve (n : node) : node :=
  match n with
  | Link _ (Done t) => resolve t
  | Link _ (Fails _) => Missing
  | other => other
  end.

Definition stat_ok (path : string) (n : node) : bool :=
  match os_stat path n with Done _ => true | Fails _ => false end.

(** [os.path.exists], [os.path.isfile], [os.path.isdir]: a successful
    [os.stat] and a test of the file type; [False] when [os.stat] fails.
    The file type is the constructor of the node. *)
Definition exists_ (path : string) (n : node) : bool := stat_ok path n.
Definition isfile (path : string) (n : node) : bool :=
  stat_ok path n && match resolve n with Reg _ _ => true | _ => false end.
Definition isdir (path : string) (n : node) : bool :=
  stat_ok path n && match resolve n with Dir _ _ => true | _ => false end.
(** [os.path.islink] does not follow the link. *)
Definition islink (n : node) : bool :=
  match n with Link _ _ => true | _ => false end.

(** [os.scandir(path)], which follows a link at [path] itself. *)
Fixpoint scandir (path : string) (n : node) : attempt (list (string * node)) :=
  match n with
  | Dir _ listing => listing
  | Link _ (Done t) => scandir path t
  | Link _ (Fails msg) => Fails msg
  | Missing => Fails (enoent path)
  | Reg _ _ | Other _ _ => Fails (enotdir path)
  end.

(** [os.DirEntry]: [is_symlink] never follows; [is_dir] and [is_file] follow
    a link and answer [False] when it does not resolve. *)
Definition is_symlink (n : node) : bool := islink n.
Definition is_dir (n : node) : bool :=
  match n with
  | Dir _ _ => true
  | Link _ (Done t) => match resolve t with Dir (Done _) _ => true | _ => false end
  | _ => false
  end.
Definition is_file (n : node) : bool :=
  match n with
  | Reg _ _ => true
  | Link _ (Done t) => match resolve t with Reg (Done _) _ => true | _ => false end
  | _ => false
  end.

(** [os.path.join(a, b)] on POSIX. *)
Definition ends_with_slash (a : string) : bool :=
  match get (String.length a - 1) a with
  | Some c => Ascii.eqb c "/"
  | None => false
  end.
Definition join (a b : string) : string :=
  if String.prefix "/" b then b
  else if String.eqb a "" || ends_with_slash a then a ++ b
  else a ++ "/" ++ b.

(** [os.path.basename] on POSIX: what follows the last slash. *)
Fixpoint basename (p : string) : string :=
  match p with
  | EmptyString => ""
  | String c rest =>
      if existsb (Ascii.eqb "/") (list_ascii_of_string rest) then basename rest
      else if Ascii.eqb c "/" then rest else p
  end.

(** ** Size Accumulator *)

(** One step of [os.walk]: the directory, its entries that are directories
    and the rest.  An entry is kept with the node its name stands for. *)
Definition walk_item : Type :=
  (string * list (string * node) * list (string * node))%type.

(** [os.walk(top)] with its defaults: top-down, [onerror=None] (a directory
    that cannot be listed yields nothing and raises nothing) and
    [followlinks=False] (a link to a directory is listed among the
    directories and not descended into).  [top] itself may be a link.  The
    descent runs over all entries and keeps the directories that are not
    links, which is the loop over [dirs] of the library (see
    [walk_below_dirs]). *)
Fixpoint walk (top : string) (n : node) {struct n} : list walk_item :=
  match n with
  | Dir _ (Done entries) =>
      (top,
       filter (fun e => is_dir (snd e)) entries,
       filter (fun e => negb (is_dir (snd e))) entries)
      :: (fix below (es : list (string * node)) : list walk_item :=
            match es with
            | [] => []
            | (name, child) :: rest =>
                ((if is_dir child && negb (islink child)
                  then walk (join top name) child else []) ++ below rest)%list
            end) entries
  | Link _ (Done t) => walk top t
  | _ => []
  end.

(** The part of [walk] below the directory itself: the walks of its
    subdirectories, one after the other. *)
Fixpoint walk_below (top : string) (es : list (string * node)) : list walk_item :=
  match es with
  | [] => []
  | (name, child) :: rest =>
      ((if is_dir child && negb (islink child)
        then walk (join top name) child else []) ++ walk_below top rest)%list
  end.

Fixpoint foldM {A B : Type} (f : B -> A -> M B) (l : list A) (b : B) : M B :=
  match l with
  | [] => ret b
  | a :: l' => b' <- f b a ;; foldM f l' b'
  end.

(** [os.path.getsize(fp)] is [os.stat(fp).st_size]. *)
Definition getsize (fp : string) (n : node) : M Z :=
  match os_stat fp n with
  | Done s => ret (st_size s)
  | Fails msg => raise (OSError msg)
  end.

(** The body of the inner loop of [get_size]. *)
Definition add_size (dirpath : string) (total_size : Z) (f : string * node) : M Z :=
  let fp := join dirpath (fst f) in
  try_OSError
    (sz <- getsize fp (snd f) ;; ret (total_size + sz))
    (fun msg => print ("Error: " ++ msg) ;; ret total_size).

Definition get_size (path : string) (n : node) : M Z :=
  if isfile path n then getsize path n
  else
    foldM (fun total_size (item : walk_item) =>
             let '(dirpath, _, filenames) := item in
             foldM (add_size dirpath) filenames total_size)
          (walk path n) 0.

(** [stat_size(path, multiplier)]; [None] is Python's [None]. *)
Definition stat_size (path : string) (n : node) (multiplier : Z) : M (option string) :=
  if negb (exists_ path n) then
    print "Error: Path does not exist." ;; ret None
  else
    size <- get_size path n ;;
    let units := if multiplier =? 1000 then UNITS_1000 else UNITS_1024 in
    s <- lift (calculate_size size units) ;;
    ret (Some s).

(** ** Entry Counter *)

Record FileCount : Type := { dirs : Z; files : Z; links : Z }.

Definition FileCount_init : FileCount := {| dirs := 0; files := 0; links := 0 |}.
Definition add_link (c : FileCount) : FileCount :=
  {| dirs := dirs c; files := files c; links := links c + 1 |}.
Definition add_dir (c : FileCount) : FileCount :=
  {| dirs := dirs c + 1; files := files c; links := links c |}.
Definition add_file (c : FileCount) : FileCount :=
  {| dirs := dirs c; files := files c + 1; links := links c |}.

Definition cannot_open (path msg : string) : string :=
  "Cannot open directory: " ++ path ++ ". Error: " ++ msg.

(** [count_file(path, counts)], where [n] is what [path] names.  The mutable
    [counts] object is threaded.  The cases on [n] spell out
    [os.scandir(path)] (see [count_file_scandir]): the only [OSError] that
    can reach the handler is the one of [os.scandir], the recursive call
    having caught its own, so the handler runs with [counts] as it was on
    entry. *)
Fixpoint count_file (path : string) (n : node) (counts : FileCount) {struct n}
  : M FileCount :=
  match n with
  | Dir _ (Done entries) =>
      (fix each (es : list (string * node)) (counts : FileCount) : M FileCount :=
         match es with
         | [] => ret counts
         | (name, entry) :: rest =>
             if is_symlink entry then each rest (add_link counts)
             else if is_dir entry then
               counts' <- count_file (join path name) entry (add_dir counts) ;;
               each rest counts'
             else if is_file entry then each rest (add_file counts)
             else each rest counts
         end) entries counts
  | Dir _ (Fails msg) => print (cannot_open path msg) ;; ret counts
  | Link _ (Done t) => count_file path t counts
  | Link _ (Fails msg) => print (cannot_open path msg) ;; ret counts
  | Missing => print (cannot_open path (enoent path)) ;; ret counts
  | Reg _ _ | Other _ _ => print (cannot_open path (enotdir path)) ;; ret counts
  end.

(** The loop of [count_file] over the entries of one directory. *)
Fixpoint count_entries (path : string) (es : list (string * node)) (counts : FileCount)
  : M FileCount :=
  match es with
  | [] => ret counts
  | (name, entry) :: rest =>
      if is_symlink entry then count_entries path rest (add_link counts)
      else if is_dir entry then
        counts' <- count_file (join path name) entry (add_dir counts) ;;
        count_entries path rest counts'
      else if is_file entry then count_entries path rest (add_file counts)
      else count_entries path rest counts
  end.

(** ** Line count *)

(** [open(filename, 'r')] and reading it to the end. *)
Fixpoint open_text (filename : string) (n : node) : reading :=
  match n with
  | Reg _ content => content
  | Other _ content => content
  | Dir _ _ => OpenFails ("[Errno 21] Is a directory: '" ++ filename ++ "'")
  | Link _ (Done t) => open_text filename t
  | Link _ (Fails msg) => OpenFails msg
  | Missing => OpenFails (enoent filename)
  end.

(** [line_count(filename)]: when [open] fails the function prints and falls
    off its end, which returns [None]. *)
Definition line_count (filename : string) (n : node) : M (option Z) :=
  match open_text filename n with
  | Lines ls => ret (Some (Z.of_nat (List.length ls)))
  | OpenFails msg =>
      print ("Could not open file " ++ filename ++ ". Error: " ++ msg) ;; ret None
  | DecodeFails msg => raise (UnicodeDecodeError msg)
  end.

(** ** Metadata Reader *)

(** What the program asks of its host besides the file system. *)
Record host : Type := {
  system : string;                         (* platform.system() *)
  utcoffset : Z -> Z;                      (* the local zone, seconds east of UTC *)
  getpwuid : Z -> option (string * Z * Z); (* pw_name, pw_uid, pw_gid; None: KeyError *)
  getgrgid : Z -> option string;           (* gr_name; None: KeyError *)
  wmi : option (string * string)           (* UserName, Domain; None: no module wmi *)
}.

(** [print_mod_time(stats)]. *)
Definition print_mod_time (h : host) (stats : stat_result) : string :=
  strftime_short (localtime (utcoffset h) (st_ctime stats)).

(** [stat.filemode(mode)]. *)
Definition has (mode bits : Z) : bool := Z.land mode bits =? bits.
Definition filetype (mode : Z) : string :=
  let fmt := Z.land mode 61440 in
  if fmt =? 40960 then "l" else if fmt =? 49152 then "s" else if fmt =? 32768 then "-"
  else if fmt =? 24576 then "b" else if fmt =? 16384 then "d" else if fmt =? 8192 then "c"
  else if fmt =? 4096 then "p" else "?".
Definition rw (mode bit : Z) (c : string) : string := if has mode bit then c else "-".
Definition exec_char (mode xbit sbit : Z) (both special : string) : string :=
  if has mode (Z.lor xbit sbit) then both
  else if has mode sbit then special
  else if has mode xbit then "x" else "-".
Definition filemode (mode : Z) : string :=
  filetype mode
  ++ rw mode 256 "r" ++ rw mode 128 "w" ++ exec_char mode 64 2048 "s" "S"
  ++ rw mode 32 "r" ++ rw mode 16 "w" ++ exec_char mode 8 1024 "s" "S"
  ++ rw mode 4 "r" ++ rw mode 2 "w" ++ exec_char mode 1 512 "t" "T".

(** [print_permissions(stats)]. *)
Definition print_permissions (stats : stat_result) : string := filemode (st_mode stats).

(** [oct(n)] for [n >= 0], and the slice [[-3:]]. *)
Fixpoint oct_digits (fuel : nat) (n : Z) (acc : string) : string :=
  match fuel with
  | O => acc
  | S k =>
      let acc' := String (ascii_of_nat (48 + Z.to_nat (n mod 8))) acc in
      if n <? 8 then acc' else oct_digits k (n / 8) acc'
  end.
Definition oct (n : Z) : string := "0o" ++ oct_digits (S (Z.to_nat (Z.log2 n))) n "".
Definition last3 (s : string) : string :=
  substring (String.length s - 3) 3 s.

(** ** Report Renderer *)

Definition ESC : string := String (ascii_of_nat 27) "".
Definition TAB : string := String (ascii_of_nat 9) "".

(** [s.rstrip(';')]. *)
Fixpoint rstrip_semicolon (s : string) : string :=
  match s with
  | EmptyString => ""
  | String c rest =>
      match rstrip_semicolon rest with
      | EmptyString => if Ascii.eqb c ";" then "" else String c ""
      | kept => String c kept
      end
  end.

(** [if code:] on an optional int: [None] and [0] are false. *)
Definition given (code : option Z) : string :=
  match code with
  | Some c => if c =? 0 then "" else str_int c ++ ";"
  | None => ""
  end.

(** [print_color(text, fg, bg, attr)]. *)
Definition print_color (text : string) (fg bg attr : option Z) : M unit :=
  let esc_seq := ESC ++ "[" ++ given attr ++ given fg ++ given bg in
  let esc_seq := rstrip_semicolon esc_seq ++ "m" in
  print (esc_seq ++ text ++ ESC ++ "[0m").

(** [f"{v}"] where [v] is a string or [None]. *)
Definition fmt_str (v : option string) : string :=
  match v with Some s => s | None => "None" end.

(** [f"{v}"] where [v] is an int or [None]. *)
Definition fmt_int (v : option Z) : string :=
  match v with Some z => str_int z | None => "None" end.

(** [f"{v:>23d}"] where [v] is an int or [None]: [None] does not accept a
    format specification. *)
Definition fmt_int_right (width : nat) (v : option Z) : res string :=
  match v with
  | Some z => Ret (rjust width (str_int z))
  | None => Raise (TypeError "unsupported format string passed to NoneType.__format__")
  end.

(** [os.stat(pathname)] as a statement that may raise. *)
Definition stat (pathname : string) (n : node) : M stat_result :=
  match os_stat pathname n with
  | Done s => ret s
  | Fails msg => raise (OSError msg)
  end.

(** [os.readlink(pathname)]. *)
Definition readlink (pathname : string) (n : node) : M string :=
  match n with
  | Link link_to _ => ret link_to
  | Missing => raise (OSError (enoent pathname))
  | _ => raise (OSError ("[Errno 22] Invalid argument: '" ++ pathname ++ "'"))
  end.

Definition short_mod (h : host) (pathname : string) (n : node) : M unit :=
  try_OSError
    (stats <- stat pathname n ;;
     size <- stat_size pathname n 1000 ;;
     let mod_time := print_mod_time h stats in
     let permissions := print_permissions stats in
     let basename := basename pathname in
     if islink n then
       link_to <- readlink pathname n ;;
       print_color
         (permissions ++ ", " ++ fmt_str size ++ ", " ++ mod_time ++ TAB ++ basename
          ++ " -> " ++ link_to)
         (Some 35) None None
     else if isdir pathname n then
       counts <- count_file pathname n FileCount_init ;;
       print_color
         (permissions ++ ", " ++ fmt_str size
          ++ ", F:" ++ ljust 6 (str_int (files counts))
          ++ ", D:" ++ ljust 6 (str_int (dirs counts))
          ++ ", S:" ++ ljust 6 (str_int (links counts))
          ++ ", " ++ mod_time ++ TAB ++ basename)
         (Some 32) None None
     else if isfile pathname n then
       lines <- line_count pathname n ;;
       shown <- lift (fmt_int_right 23 lines) ;;
       print_color
         (permissions ++ ", " ++ fmt_str size ++ ", " ++ shown ++ " lines, "
          ++ mod_time ++ TAB ++ basename)
         (Some 34) None None
     else ret tt)
    (fun msg => print ("Error: " ++ msg)).

Definition headers : list string :=
  ["Name"; "Counts"; "Permissions"; "Usr/Grp"; "Gid/Uid"; "Size"; "Modified"; "Inode"; "Link"].

(** [time.ctime(secs)]. *)
Definition ctime (h : host) (secs : Z) : string :=
  asctime (localtime (utcoffset h) secs).

(** A value that is a string or [None], as a table cell. *)
Definition cell_of (v : option string) : cell :=
  match v with Some s => CStr s | None => CNone end.

(** The [if os.path.isdir ... elif os.path.isfile ... elif os.path.islink]
    chain of [long_mod].  The source writes it out once per platform; the two
    copies differ only in the Gid/Uid cell. *)
Definition long_rows (pathname : string) (n : node) (stats : stat_result)
    (size : option string) (mod_time : string) (inode : Z)
    (usr_grp : string) (gid_uid : cell) : M (list (list cell)) :=
  let permissions := CStr (last3 (oct (st_mode stats))) in
  if isdir pathname n then
    counts <- count_file pathname n FileCount_init ;;
    ret [[CStr pathname;
          CStr (str_int (files counts) ++ " files, " ++ str_int (dirs counts)
                ++ " directories, " ++ str_int (links counts) ++ " symlink");
          permissions; CStr usr_grp; gid_uid; cell_of size; CStr mod_time; CInt inode; CNone]]
  else if isfile pathname n then
    lines <- line_count pathname n ;;
    ret [[CStr pathname; CStr (fmt_int lines ++ " lines");
          permissions; CStr usr_grp; gid_uid; cell_of size; CStr mod_time; CInt inode; CNone]]
  else if islink n then
    link_to <- readlink pathname n ;;
    ret [[CStr pathname; CNone;
          permissions; CStr usr_grp; gid_uid; cell_of size; CStr mod_time; CInt inode;
          CStr link_to]]
  else ret [].

Definition long_mod (h : host) (pathname : string) (n : node) : M unit :=
  try_OSError
    (stats <- stat pathname n ;;
     size <- stat_size pathname n 1000 ;;
     let mod_time := ctime h (st_mtime stats) in
     let inode := st_ino stats in
     data <-
       (if String.eqb (system h) "Windows" then
          match wmi h with
          | None => raise (ImportError "No module named 'wmi'")
          | Some (user_name, group_name) =>
              long_rows pathname n stats size mod_time inode
                        (user_name ++ " / " ++ group_name) CNone
          end
        else if String.eqb (system h) "Linux" then
          match getgrgid h (st_gid stats) with
          | None =>
              raise (KeyError ("getgrgid(): gid not found: " ++ str_int (st_gid stats)))
          | Some group_name =>
              match getpwuid h (st_uid stats) with
              | None =>
                  raise (KeyError ("getpwuid(): uid not found: " ++ str_int (st_uid stats)))
              | Some (user_name, pw_uid, pw_gid) =>
                  long_rows pathname n stats size mod_time inode
                            (user_name ++ " / " ++ group_name)
                            (CStr (str_int pw_gid ++ " / " ++ str_int pw_uid))
              end
          end
        else ret []) ;;
     ([Table headers data], Ret tt))
    (fun msg => print ("Error: " ++ msg)).

(** ** CLI Driver *)

(** The namespace built by [parser.parse_args()]. *)
Module args.
Record t : Type := { s : bool; l : bool; paths : list string }.
End args.

(** The three [add_argument] declarations: two [store_true] flags and the
    positionals, [nargs='*'] with [default=['.']]. *)
Definition parse_args (s_given l_given : bool) (positionals : list string) : args.t :=
  {| args.s := s_given;
     args.l := l_given;
     args.paths := match positionals with [] => ["."] | _ => positionals end |}.

(** The loop of [main] with the renderer made a parameter. *)
Definition each_path (renderer : string -> node -> M unit) (lookup : string -> node)
    (paths : list string) : M unit :=
  foldM (fun _ path =>
           try_OSError (renderer path (lookup path))
                       (fun msg => print ("Error: " ++ msg)))
        paths tt.

(** [main()], after [parse_args]; [lookup] resolves a path to what it names. *)
Definition main (h : host) (lookup : string -> node) (a : args.t) : M unit :=
  foldM (fun _ path =>
           try_OSError
             (if args.s a then short_mod h path (lookup path)
              else if args.l a then long_mod h path (lookup path)
              else short_mod h path (lookup path))
             (fun msg => print ("Error: " ++ msg)))
        (args.paths a) tt.

(** ** Reference functions for the statements below

    Pure functions on the tree, without output, exceptions or accumulators;
    the theorems relate the program to them. *)

Definition FileCount_plus (a b : FileCount) : FileCount :=
  {| dirs := dirs a + dirs b; files := files a + files b; links := links a + links b |}.

(** What one directory entry adds to the counts, given what its own
    directory (if it is one) adds. *)
Definition tally_entry (below : FileCount) (entry : node) : FileCount :=
  if is_symlink entry then add_link FileCount_init
  else if is_dir entry then add_dir below
  else if is_file entry then add_file FileCount_init
  else FileCount_init.

(** The entries counted under [n]: every entry of every directory that can
    be opened, reached through directories that are not links. *)
Fixpoint tally (n : node) : FileCount :=
  match n with
  | Dir _ (Done entries) =>
      (fix over (es : list (string * node)) : FileCount :=
         match es with
         | [] => FileCount_init
         | (_, entry) :: rest => FileCount_plus (tally_entry (tally entry) entry) (over rest)
         end) entries
  | Link _ (Done t) => tally t
  | _ => FileCount_init
  end.

Fixpoint tally_entries (es : list (string * node)) : FileCount :=
  match es with
  | [] => FileCount_init
  | (_, entry) :: rest => FileCount_plus (tally_entry (tally entry) entry) (tally_entries rest)
  end.

(** The directories under [path] that cannot be opened, as the lines
    [count_file] prints for them, in the order of the traversal. *)
Fixpoint unopened (path : string) (n : node) : list string :=
  match n with
  | Dir _ (Done entries) =>
      (fix over (es : list (string * node)) : list string :=
         match es with
         | [] => []
         | (name, entry) :: rest =>
             ((if negb (is_symlink entry) && is_dir entry
               then unopened (join path name) entry else []) ++ over rest)%list
         end) entries
  | Dir _ (Fails msg) => [cannot_open path msg]
  | Link _ (Done t) => unopened path t
  | Link _ (Fails msg) => [cannot_open path msg]
  | Missing => [cannot_open path (enoent path)]
  | Reg _ _ | Other _ _ => [cannot_open path (enotdir path)]
  end.

Fixpoint unopened_entries (path : string) (es : list (string * node)) : list string :=
  match es with
  | [] => []
  | (name, entry) :: rest =>
      ((if negb (is_symlink entry) && is_dir entry
        then unopened (join path name) entry else []) ++ unopened_entries path rest)%list
  end.

(** The size [os.stat] reports for an entry, links followed; 0 when it
    fails. *)
Definition size_or_zero (fp : string) (n : node) : Z :=
  match os_stat fp n with Done s => st_size s | Fails _ => 0 end.

(** The sizes [get_size] adds up over the files of one directory and over a
    walk, and the messages of the entries it could not size, both in the
    order of the walk. *)
Definition sized_in (dirpath : string) (filenames : list (string * node)) : list Z :=
  flat_map (fun f : string * node =>
              match os_stat (join dirpath (fst f)) (snd f) with
              | Done s => [st_size s]
              | Fails _ => []
              end) filenames.
Definition unsized_in (dirpath : string) (filenames : list (string * node)) : list string :=
  flat_map (fun f : string * node =>
              match os_stat (join dirpath (fst f)) (snd f) with
              | Done _ => []
              | Fails msg => [msg]
              end) filenames.
Definition sized (items : list walk_item) : list Z :=
  flat_map (fun item : walk_item =>
              let '(dirpath, _, filenames) := item in sized_in dirpath filenames) items.
Definition unsized (items : list walk_item) : list string :=
  flat_map (fun item : walk_item =>
              let '(dirpath, _, filenames) := item in unsized_in dirpath filenames) items.

(** The line [get_size] prints for an entry it could not size. *)
Definition error_line (msg : string) : event := Stdout ("Error: " ++ msg).

Definition Zsum (l : list Z) : Z := fold_right Z.add 0 l.

(** What a directory tree contributes to [get_size]: an entry that is not a
    directory counts with the size [os.stat] reports through any link; a
    directory is descended into unless it is a link. *)
Fixpoint followed_total (n : node) : Z :=
  match n with
  | Dir _ (Done entries) =>
      (fix over (es : list (string * node)) : Z :=
         match es with
         | [] => 0
         | (name, child) :: rest =>
             (if is_dir child
              then (if islink child then 0 else followed_total child)
              else size_or_zero name child) + over rest
         end) entries
  | Link _ (Done t) => followed_total t
  | _ => 0
  end.

(** The total as the specification words it: regular files only, links
    never followed, directories and links contributing nothing themselves. *)
Fixpoint spec_regular_total (n : node) : Z :=
  match n with
  | Reg (Done s) _ => st_size s
  | Dir _ (Done entries) =>
      (fix over (es : list (string * node)) : Z :=
         match es with
         | [] => 0
         | (_, child) :: rest => spec_regular_total child + over rest
         end) entries
  | _ => 0
  end.

(** The unit index as the specification words it: the floor of the
    logarithm, clamped to the last index of the ladder. *)
Definition spec_clamped_index (size base : Z) (units : list string) : Z :=
  Z.min (log_index size base) (Z.of_nat (List.length units) - 1).

(** A size text made by the decimal ladder. *)
Definition decimal_size (s : string) : Prop :=
  s = "0 B" \/ exists value unit_name, s = value ++ " " ++ unit_name /\ In unit_name UNITS_1000.

(** A line of diagnostics. *)
Definition diagnostic (line : string) : Prop :=
  exists rest,
    line = "Error: " ++ rest \/ line = "Cannot open directory: " ++ rest
    \/ line = "Could not open file " ++ rest.

(** [print_color(text, fg=code)] with one non-zero code prints this. *)
Definition colored (code : Z) (text : string) : string :=
  ESC ++ "[" ++ str_int code ++ "m" ++ text ++ ESC ++ "[0m".

(** An event whose size field comes from the decimal ladder: a line of
    diagnostics has no size field; a rendered line starts with the colour,
    the permissions and then the size; a table holds the size in the column
    headed [Size]. *)
Definition uses_decimal (ev : event) : Prop :=
  match ev with
  | Stdout line =>
      diagnostic line
      \/ exists code stats size rest,
          line = colored code (print_permissions stats ++ ", " ++ size ++ ", " ++ rest)
          /\ decimal_size size
  | Table hs data =>
      nth_error hs 5 = Some "Size"
      /\ forall row, In row data ->
           exists size, nth_error row 5 = Some (CStr size) /\ decimal_size size
  end.

(** ** Concrete hosts and trees used in the examples *)

Definition plain_stat (mode size mtime ctime : Z) : stat_result :=
  {| st_mode := mode; st_ino := 42; st_uid := 1000; st_gid := 1000;
     st_size := size; st_mtime := mtime; st_ctime := ctime |}.

(** A Linux host on UTC with one user and one group. *)
Definition utc_linux : host :=
  {| system := "Linux";
     utcoffset := fun _ => 0;
     getpwuid := fun uid => if uid =? 1000 then Some ("alice", 1000, 1000) else None;
     getgrgid := fun gid => if gid =? 1000 then Some "users" else None;
     wmi := None |}.

Definition file_of_size (size : Z) : node :=
  Reg (Done (plain_stat 33188 size 0 0)) (Lines []).
Definition directory (entries : list (string * node)) : node :=
  Dir (Done (plain_stat 16877 4096 0 0)) (Done entries).

(** A regular file of three lines, and one whose mode lets nobody read it. *)
Definition notes_txt : node :=
  Reg (Done (plain_stat 33188 12 0 0)) (Lines ["one"; "two"; "three"]).
Definition secret_txt : node :=
  Reg (Done (plain_stat 32768 12 0 0))
      (OpenFails "[Errno 13] Permission denied: 'secret.txt'").
Definition two_files (path : string) : node :=
  if String.eqb path "secret.txt" then secret_txt
  else if String.eqb path "notes.txt" then notes_txt
  else Missing.

(** A file last modified at the epoch whose mode was changed a day later. *)
Definition chmod_later : node :=
  Reg (Done (plain_stat 33188 12 0 86400)) (Lines ["one"; "two"; "three"]).

(** Two regular files, a subdirectory holding one file, and a link to a
    directory that holds two files. *)
Definition mixed_dir : node :=
  directory
    [("a.txt", file_of_size 10);
     ("b.txt", file_of_size 20);
     ("sub", directory [("c.txt", file_of_size 5)]);
     ("shortcut",
      Link "/srv/shared"
           (Done (directory [("x", file_of_size 1); ("y", file_of_size 2)])))].

(** A ten-byte file and a link to it. *)
Definition dir_with_link : node :=
  directory [("data", file_of_size 10); ("alias", Link "data" (Done (file_of_size 10)))].

(** Files of 10, 20 and 30 bytes, a subdirectory with a file of 5 bytes and
    one more file there that is gone by the time it is sized. *)
Definition sizes_dir : node :=
  directory
    [("ten", file_of_size 10);
     ("twenty", file_of_size 20);
     ("thirty", file_of_size 30);
     ("sub",
      directory
        [("five", file_of_size 5);
         ("gone", Reg (Fails "[Errno 2] No such file or directory: 'd/sub/gone'")
                      (OpenFails "[Errno 2] No such file or directory: 'd/sub/gone'"))])].

(** A ten-byte file beside a subdirectory of mode 000, which its owner
    may stat but not list: whatever it holds stays out of sight. *)
Definition locked_subdir : node :=
  Dir (Done (plain_stat 16384 4096 0 0)) (Fails "[Errno 13] Permission denied: 'd/locked'").
Definition locked_dir : node :=
  directory [("kept", file_of_size 10); ("locked", locked_subdir)].

(** Whether a path holds a NUL character.  The system calls refuse such a
    path with [ValueError] before the file system is asked, so no tree
    describes what happens to it; what is stated of a path that names
    nothing is stated of paths without one. *)
Definition embedded_nul (path : string) : bool :=
  existsb (Ascii.eqb zero) (list_ascii_of_string path).

(** A link to a fifo, and a file whose owner has no entry in the user
    database. *)
Definition pipe_link : node :=
  Link "queue" (Done (Other (Done (plain_stat 4480 0 0 0)) (Lines []))).

(** The codes [print_color] puts into the escape sequence for one argument:
    none for [None] and for [0]. *)
Definition chosen (code : option Z) : list Z :=
  match code with
  | Some c => if c =? 0 then [] else [c]
  | None => []
  end.

(** A test run on [count] consecutive integers from [z] on. *)
Fixpoint range_check (P : Z -> bool) (count : nat) (z : Z) : bool :=
  match count with
  | O => true
  | S k => P z && range_check P k (z + 1)
  end.

(** A Windows host whose session is [bob] in the domain [OFFICE], and the
    rows long mode prints for [notes_txt] on the two hosts. *)
Definition windows_host : host :=
  {| system := "Windows";
     utcoffset := fun _ => 0;
     getpwuid := fun _ => None;
     getgrgid := fun _ => None;
     wmi := Some ("bob", "OFFICE") |}.
Definition notes_row_linux : list cell :=
  [CStr "notes.txt"; CStr "3 lines"; CStr "644"; CStr "alice / users"; CStr "1000 / 1000";
   CStr "12.0 B"; CStr "Thu Jan  1 00:00:00 1970"; CInt 42; CNone].
Definition notes_row_windows : list cell :=
  [CStr "notes.txt"; CStr "3 lines"; CStr "644"; CStr "bob / OFFICE"; CNone;
   CStr "12.0 B"; CStr "Thu Jan  1 00:00:00 1970"; CInt 42; CNone].


(** ** Induction on the file-system tree *)

Section node_induction.
Variable P : node -> Prop.
Hypothesis P_Reg : forall st content, P (Reg st content).
Hypothesis P_Dir : forall st entries,
    Forall (fun e => P (snd e)) entries -> P (Dir st (Done entries)).
Hypothesis P_Dir_fails : forall st msg, P (Dir st (Fails msg)).
Hypothesis P_Link : forall link_to t, P t -> P (Link link_to (Done t)).
Hypothesis P_Link_fails : forall link_to msg, P (Link link_to (Fails msg)).
Hypothesis P_Other : forall st content, P (Other st content).
Hypothesis P_Missing : P Missing.

Fixpoint node_induction (n : node) : P n :=
  match n with
  | Reg st content => P_Reg st content
  | Dir st (Done entries) =>
      P_Dir st entries
        ((fix all (es : list (string * node)) : Forall (fun e => P (snd e)) es :=
            match es with
            | [] => Forall_nil _
            | e :: rest => Forall_cons e (node_induction (snd e)) (all rest)
            end) entries)
  | Dir st (Fails msg) => P_Dir_fails st msg
  | Link link_to (Done t) => P_Link link_to t (node_induction t)
  | Link link_to (Fails msg) => P_Link_fails link_to msg
  | Other st content => P_Other st content
  | Missing => P_Missing
  end.
End node_induction.

(** * Proofs *)


(** ** The monad *)

Lemma bind_ret_l {A B} (a : A) (k : A -> M B) : bind (ret a) k = k a.
Proof. unfold bind, ret. destruct (k a). reflexivity. Qed.

Lemma bind_run {A B} (out : list event) (a : A) (k : A -> M B) :
  bind (out, Ret a) k = ((out ++ output (k a))%list, outcome (k a)).
Proof. unfold bind, output, outcome. destruct (k a). reflexivity. Qed.

Lemma M_eta {A} (m : M A) : m = (output m, outcome m).
Proof. destruct m. reflexivity. Qed.

(** ** Entry Counter *)

Ltac count_arith :=
  repeat match goal with c : FileCount |- _ => destruct c end;
  unfold FileCount_plus, add_link, add_dir, add_file, FileCount_init;
  cbn [dirs files links]; f_equal; lia.

Lemma FileCount_plus_init_r c : FileCount_plus c FileCount_init = c.
Proof. count_arith. Qed.

Lemma count_file_Dir path st entries counts :
  count_file path (Dir st (Done entries)) counts = count_entries path entries counts.
Proof.
  revert counts. induction entries as [|[name entry] rest IH]; intro counts.
  - reflexivity.
  - simpl in *.
    destruct (is_symlink entry); [apply IH|].
    destruct (is_dir entry).
    + destruct (count_file (join path name) entry (add_dir counts)) as [out [c'|e]];
        simpl; [rewrite IH|]; reflexivity.
    + destruct (is_file entry); apply IH.
Qed.

Lemma tally_Dir st entries : tally (Dir st (Done entries)) = tally_entries entries.
Proof.
  induction entries as [|[name entry] rest IH]; [reflexivity|].
  simpl in *. rewrite IH. reflexivity.
Qed.

Lemma unopened_Dir path st entries :
  unopened path (Dir st (Done entries)) = unopened_entries path entries.
Proof.
  induction entries as [|[name entry] rest IH]; [reflexivity|].
  simpl in *. rewrite IH. reflexivity.
Qed.

(** [count_file] computes the reference tally on top of the counts it is
    given, prints one line per directory it cannot open and raises nothing. *)
Lemma count_file_spec n : forall path counts,
  count_file path n counts
  = (map Stdout (unopened path n), Ret (FileCount_plus counts (tally n))).
Proof.
  induction n as [st content|st entries IH|st msg|link_to t IH|link_to msg|st content|]
    using node_induction; intros path counts;
    try (cbn; rewrite FileCount_plus_init_r; reflexivity).
  - rewrite count_file_Dir, tally_Dir, unopened_Dir.
    revert counts. induction IH as [|[name entry] rest Hentry _ IHrest]; intro counts.
    + cbn. rewrite FileCount_plus_init_r. reflexivity.
    + cbn [count_entries tally_entries unopened_entries]. unfold tally_entry.
      simpl in Hentry.
      destruct (is_symlink entry); cbn [negb andb].
      * rewrite IHrest. cbn [app]. f_equal. f_equal.
        destruct (tally_entries rest); count_arith.
      * destruct (is_dir entry).
        -- rewrite Hentry, bind_run, IHrest. cbn [output outcome fst snd].
           rewrite map_app. f_equal. f_equal.
           destruct (tally entry), (tally_entries rest); count_arith.
        -- destruct (is_file entry); rewrite IHrest; cbn [app]; f_equal; f_equal;
             destruct (tally_entries rest); count_arith.
  - cbn. apply IH.
Qed.

(** ** Size Accumulator *)

Lemma Zsum_app l1 l2 : Zsum (l1 ++ l2) = Zsum l1 + Zsum l2.
Proof. unfold Zsum. induction l1 as [|a l1 IH]; cbn [app fold_right]; lia. Qed.

Lemma walk_Dir top st entries :
  walk top (Dir st (Done entries))
  = (top, filter (fun e => is_dir (snd e)) entries,
          filter (fun e => negb (is_dir (snd e))) entries) :: walk_below top entries.
Proof.
  cbn [walk]. f_equal.
  induction entries as [|[name child] rest IH]; [reflexivity|].
  cbn [walk_below]. rewrite <- IH. reflexivity.
Qed.

(** Whether [os.stat] succeeds, and the size it reports, do not depend on
    how the path is spelled. *)
Lemma size_or_zero_path n : forall p q, size_or_zero p n = size_or_zero q n.
Proof.
  unfold size_or_zero.
  induction n as [st content|st entries _|st msg|link_to t IH|link_to msg|st content|]
    using node_induction; intros p q; cbn [os_stat]; auto.
Qed.

Lemma add_size_run dirpath total f :
  add_size dirpath total f
  = match os_stat (join dirpath (fst f)) (snd f) with
    | Done s => ([], Ret (total + st_size s))
    | Fails msg => ([error_line msg], Ret total)
    end.
Proof.
  unfold add_size, getsize. destruct (os_stat (join dirpath (fst f)) (snd f)); reflexivity.
Qed.

Lemma get_size_files dirpath filenames : forall total,
  foldM (add_size dirpath) filenames total
  = (map error_line (unsized_in dirpath filenames),
     Ret (total + Zsum (sized_in dirpath filenames))).
Proof.
  unfold sized_in, unsized_in.
  induction filenames as [|f rest IH]; intro total; cbn [foldM flat_map].
  - cbn. unfold ret. do 2 f_equal. lia.
  - rewrite add_size_run.
    destruct (os_stat (join dirpath (fst f)) (snd f)) as [s|msg];
      rewrite bind_run, IH; cbn [output outcome fst snd app map].
    + do 2 f_equal. unfold Zsum. cbn [fold_right]. lia.
    + reflexivity.
Qed.

Lemma get_size_items items : forall total,
  foldM (fun total_size (item : walk_item) =>
           let '(dirpath, _, filenames) := item in
           foldM (add_size dirpath) filenames total_size) items total
  = (map error_line (unsized items), Ret (total + Zsum (sized items))).
Proof.
  unfold sized, unsized.
  induction items as [|[[dirpath dirnames] filenames] rest IH]; intro total;
    cbn [foldM flat_map].
  - cbn. unfold ret. do 2 f_equal. lia.
  - rewrite get_size_files, bind_run, IH. cbn [output outcome fst snd].
    rewrite map_app, Zsum_app. do 2 f_equal. lia.
Qed.

(** A walk of a directory: every entry that can be sized is added, every
    other one is reported, and nothing is raised. *)
Lemma get_size_walk path n :
  isfile path n = false ->
  get_size path n
  = (map error_line (unsized (walk path n)), Ret (Zsum (sized (walk path n)))).
Proof.
  intro Hfile. unfold get_size. rewrite Hfile. apply get_size_items.
Qed.

Lemma isfile_Dir path st listing : isfile path (Dir st listing) = false.
Proof. unfold isfile. cbn [resolve]. apply andb_false_r. Qed.

Lemma sized_app a b : sized (a ++ b) = (sized a ++ sized b)%list.
Proof. unfold sized. apply flat_map_app. Qed.

Lemma sized_files_total top entries :
  Zsum (sized_in top (filter (fun e => negb (is_dir (snd e))) entries))
  = Zsum (map (fun e : string * node =>
                 if is_dir (snd e) then 0 else size_or_zero (fst e) (snd e)) entries).
Proof.
  unfold sized_in.
  induction entries as [|[name child] rest IH]; [reflexivity|].
  cbn [filter map snd fst]. destruct (is_dir child); cbn [negb].
  - rewrite IH. unfold Zsum. cbn. lia.
  - cbn [flat_map fst snd]. rewrite Zsum_app, IH.
    rewrite (size_or_zero_path child name (join top name)). unfold size_or_zero.
    destruct (os_stat (join top name) child); unfold Zsum; cbn; lia.
Qed.

(** The walk adds up exactly the reference total of the tree. *)
Lemma walk_total n : forall top, Zsum (sized (walk top n)) = followed_total n.
Proof.
  induction n as [st content|st entries IH|st msg|link_to t IH|link_to msg|st content|]
    using node_induction; intro top; try reflexivity.
  - rewrite walk_Dir.
    match goal with |- context [?i :: walk_below ?t ?es] =>
      change (i :: walk_below t es) with ([i] ++ walk_below t es)%list end.
    rewrite sized_app, Zsum_app. unfold sized at 1. cbn [flat_map].
    rewrite app_nil_r, sized_files_total.
    cbn [followed_total].
    induction IH as [|[name child] rest Hchild _ IHrest]; [reflexivity|].
    cbn [map walk_below fst snd]. rewrite sized_app, Zsum_app.
    cbn [snd] in Hchild. unfold Zsum in *. cbn [fold_right].
    destruct (is_dir child); cbn [andb].
    + destruct (islink child); cbn [negb].
      * cbn [sized flat_map fold_right] in *. lia.
      * rewrite Hchild. lia.
    + cbn [sized flat_map fold_right] in *. lia.
  - cbn [walk followed_total]. apply IH.
Qed.

(** ** Size Formatter *)

(** [log_index] is the floor of the logarithm: the index [i] with
    [base ^ i <= size < base ^ (i + 1)]. *)
Lemma log_index_from_spec fuel : forall size base,
  2 <= base -> 0 < size -> size < 2 ^ (Z.of_nat fuel + 1) ->
  0 <= log_index_from fuel size base
  /\ base ^ log_index_from fuel size base <= size
     < base ^ (log_index_from fuel size base + 1).
Proof.
  induction fuel as [|k IH]; intros size base Hbase Hpos Hfuel; cbn [log_index_from].
  - change (2 ^ (Z.of_nat 0 + 1)) with 2 in Hfuel.
    change (base ^ 0) with 1. rewrite Z.pow_1_r. lia.
  - destruct (Z.ltb_spec size base) as [Hlt|Hge].
    + change (base ^ 0) with 1. rewrite Z.pow_1_r. lia.
    + assert (Hq : 0 < size / base) by (apply Z.div_str_pos; lia).
      assert (Hhalf : size / base < 2 ^ (Z.of_nat k + 1)).
      { apply Z.div_lt_upper_bound; [lia|].
        replace (Z.of_nat (S k) + 1) with (Z.succ (Z.of_nat k + 1)) in Hfuel by lia.
        rewrite Z.pow_succ_r in Hfuel by lia.
        assert (0 < 2 ^ (Z.of_nat k + 1)) by (apply Z.pow_pos_nonneg; lia). nia. }
      destruct (IH (size / base) base Hbase Hq Hhalf) as [Hi [Hlo Hhi]].
      set (i := log_index_from k (size / base) base) in *.
      assert (E0 : base ^ (i + 1) = base * base ^ i)
        by (replace (i + 1) with (Z.succ i) by lia; apply Z.pow_succ_r; lia).
      assert (E1 : base ^ (1 + i) = base * base ^ i)
        by (replace (1 + i) with (Z.succ i) by lia; apply Z.pow_succ_r; lia).
      assert (E2 : base ^ (1 + i + 1) = base * (base * base ^ i))
        by (replace (1 + i + 1) with (Z.succ (Z.succ i)) by lia;
            rewrite !Z.pow_succ_r by lia; reflexivity).
      rewrite E0 in Hhi. rewrite E1, E2.
      pose proof (Z.div_mod size base ltac:(lia)) as Hdm.
      pose proof (Z.mod_pos_bound size base ltac:(lia)) as Hmod.
      split; [lia|]. split; nia.
Qed.

Lemma log_index_spec size base :
  2 <= base -> 0 < size ->
  0 <= log_index size base
  /\ base ^ log_index size base <= size < base ^ (log_index size base + 1).
Proof.
  intros Hbase Hpos. apply log_index_from_spec; trivial.
  rewrite Z2Nat.id by apply Z.log2_nonneg.
  replace (Z.log2 size + 1) with (Z.succ (Z.log2 size)) by lia.
  apply Z.log2_spec. exact Hpos.
Qed.

Lemma getitem_In {A} (l : list A) i a : getitem l i = Ret a -> In a l.
Proof.
  unfold getitem. destruct (_ && _); [|discriminate].
  destruct (nth_error l _) eqn:Hnth; [|discriminate].
  intro H. injection H as <-. eapply nth_error_In. exact Hnth.
Qed.

(** Whatever the decimal ladder returns is a value, a space and one of its
    own units. *)
Lemma calculate_size_decimal size s :
  calculate_size size UNITS_1000 = Ret s -> decimal_size s.
Proof.
  unfold calculate_size. destruct (size <=? 0).
  - intro H. injection H as <-. left. reflexivity.
  - change (list_eqb UNITS_1000 UNITS_1000) with true. cbv iota.
    destruct (getitem UNITS_1000 (log_index size 1000)) as [u|e] eqn:Hu; [|discriminate].
    intro H. injection H as <-. right.
    exists (format_1f (true_div size (1000 ^ log_index size 1000))), u.
    split; [reflexivity|]. eapply getitem_In. exact Hu.
Qed.

(** Rounding to the nearest integer moves a number by at most a half. *)
Lemma round_half_even_near q :
  (Qabs (inject_Z (round_half_even q) - q) <= 1 # 2)%Q.
Proof.
  unfold round_half_even.
  pose proof (Qfloor_le q) as Hlo. pose proof (Qlt_floor q) as Hhi.
  rewrite inject_Z_plus in Hhi. change (inject_Z 1) with 1%Q in Hhi.
  set (f := Qfloor q) in *.
  apply Qabs_Qle_condition.
  destruct (Qcompare_spec (q - inject_Z f) (1 # 2)) as [Heq|Hlt|Hgt].
  - destruct (Z.even f); [|rewrite inject_Z_plus; change (inject_Z 1) with 1%Q];
      split; lra.
  - split; lra.
  - rewrite inject_Z_plus. change (inject_Z 1) with 1%Q. split; lra.
Qed.

(** The tenths that [.1f] prints are within a twentieth of the value. *)
Lemma tenths_near v : (Qabs (inject_Z (tenths v) / 10 - v) <= 1 # 20)%Q.
Proof.
  unfold tenths. pose proof (round_half_even_near (v * 10)) as H.
  apply Qabs_Qle_condition in H. apply Qabs_Qle_condition.
  set (t := inject_Z (round_half_even (v * 10))) in *. clearbody t.
  setoid_replace (t / 10 - v)%Q with ((t - v * 10) * (1 # 10))%Q by field.
  split; lra.
Qed.

(** ** What is written, step by step *)

Section written.
Variable P : event -> Prop.

Lemma written_bind {A B} (m : M A) (k : A -> M B) :
  Forall P (output m) ->
  (forall a, outcome m = Ret a -> Forall P (output (k a))) ->
  Forall P (output (bind m k)).
Proof.
  destruct m as [out [a|e]]; cbn [output outcome fst snd bind]; intros Hm Hk.
  - specialize (Hk a eq_refl). destruct (k a) as [out' r]. cbn [fst] in *.
    apply Forall_app. split; assumption.
  - exact Hm.
Qed.

Lemma written_try {A} (m : M A) (handler : string -> M A) :
  Forall P (output m) ->
  (forall msg, outcome m = Raise (OSError msg) -> Forall P (output (handler msg))) ->
  Forall P (output (try_OSError m handler)).
Proof.
  destruct m as [out [a|[msg|msg|msg|msg|msg|msg]]];
    cbn [output outcome fst snd try_OSError]; intros Hm Hh; try exact Hm.
  specialize (Hh msg eq_refl). destruct (handler msg) as [out' r]. cbn [fst] in *.
  apply Forall_app. split; assumption.
Qed.

Lemma written_foldM {A B} (f : B -> A -> M B) (l : list A) :
  (forall b a, Forall P (output (f b a))) ->
  forall b, Forall P (output (foldM f l b)).
Proof.
  intro Hf. induction l as [|a l IH]; intro b; cbn [foldM].
  - constructor.
  - apply written_bind; [apply Hf|]. intros b' _. apply IH.
Qed.
End written.

Lemma uses_decimal_error msg : uses_decimal (Stdout ("Error: " ++ msg)).
Proof. left. exists msg. left. reflexivity. Qed.

Lemma uses_decimal_cannot_open path msg : uses_decimal (Stdout (cannot_open path msg)).
Proof. left. exists (path ++ ". Error: " ++ msg). right. left. reflexivity. Qed.

Lemma unopened_cannot_open n : forall path line,
  In line (unopened path n) -> exists p msg, line = cannot_open p msg.
Proof.
  induction n as [st content|st entries IH|st msg|link_to t IH|link_to msg|st content|]
    using node_induction; intros path line;
    try (cbn [unopened In]; intros [<-|[]]; eauto).
  - rewrite unopened_Dir.
    induction IH as [|[name entry] rest Hentry _ IHrest]; cbn [unopened_entries].
    + intros [].
    + intro Hin. apply in_app_or in Hin. destruct Hin as [Hin|Hin]; [|auto].
      destruct (negb (is_symlink entry) && is_dir entry); [|destruct Hin].
      eapply Hentry. exact Hin.
  - cbn [unopened]. apply IH.
Qed.

Lemma count_file_written path n counts :
  Forall uses_decimal (output (count_file path n counts)).
Proof.
  rewrite count_file_spec. cbn [output fst]. apply Forall_forall. intros ev Hin.
  apply in_map_iff in Hin. destruct Hin as [line [<- Hin]].
  apply unopened_cannot_open in Hin. destruct Hin as [p [msg ->]].
  apply uses_decimal_cannot_open.
Qed.

Lemma error_lines_written msgs : Forall uses_decimal (map error_line msgs).
Proof.
  apply Forall_forall. intros ev Hin. apply in_map_iff in Hin.
  destruct Hin as [msg [<- _]]. apply uses_decimal_error.
Qed.

(** [get_size] always returns: a file that [os.path.isfile] accepts can be
    sized, and the walk raises nothing. *)
Lemma get_size_returns path n :
  exists msgs total, get_size path n = (map error_line msgs, Ret total).
Proof.
  destruct (isfile path n) eqn:Hfile.
  - unfold get_size. rewrite Hfile. unfold getsize.
    unfold isfile, stat_ok in Hfile.
    destruct (os_stat path n) as [s|msg]; [|discriminate].
    exists [], (st_size s). reflexivity.
  - rewrite (get_size_walk path n Hfile). eauto.
Qed.

Lemma stat_size_decimal path n stats :
  os_stat path n = Done stats ->
  Forall uses_decimal (output (stat_size path n 1000))
  /\ forall size, outcome (stat_size path n 1000) = Ret size ->
       exists s, size = Some s /\ decimal_size s.
Proof.
  intro Hstat. unfold stat_size, exists_, stat_ok. rewrite Hstat. cbn [negb].
  destruct (get_size_returns path n) as [msgs [total ->]].
  rewrite bind_run. change (1000 =? 1000) with true. cbv iota.
  unfold lift. destruct (calculate_size total UNITS_1000) as [s|e] eqn:Hcalc;
    cbn [bind output outcome fst snd ret app]; rewrite ?app_nil_r.
  - split; [apply error_lines_written|]. intros size H. injection H as <-.
    exists s. split; [reflexivity|]. eapply calculate_size_decimal. exact Hcalc.
  - split; [apply error_lines_written|]. discriminate.
Qed.

Lemma stat_outcome pathname n stats :
  outcome (stat pathname n) = Ret stats -> os_stat pathname n = Done stats.
Proof.
  unfold stat. destruct (os_stat pathname n); cbn; intro H; [injection H as ->|discriminate].
  reflexivity.
Qed.

Lemma print_color_35 text : print_color text (Some 35) None None = print (colored 35 text).
Proof. reflexivity. Qed.
Lemma print_color_32 text : print_color text (Some 32) None None = print (colored 32 text).
Proof. reflexivity. Qed.
Lemma print_color_34 text : print_color text (Some 34) None None = print (colored 34 text).
Proof. reflexivity. Qed.

Lemma rendered_line code stats size rest :
  decimal_size size ->
  Forall uses_decimal
    (output (print (colored code (print_permissions stats ++ ", " ++ size ++ ", " ++ rest)))).
Proof.
  intro Hsize. constructor; [|constructor]. right. exists code, stats, size, rest. auto.
Qed.

Lemma line_count_written filename n :
  Forall uses_decimal (output (line_count filename n)).
Proof.
  unfold line_count. destruct (open_text filename n) as [ls|msg|msg]; cbn; constructor;
    [|constructor].
  left. exists (filename ++ ". Error: " ++ msg). right. right. reflexivity.
Qed.

(** Every line of compact mode is a diagnostic or shows a decimal size. *)
Lemma short_mod_written h pathname n :
  Forall uses_decimal (output (short_mod h pathname n)).
Proof.
  unfold short_mod. apply written_try; [|intros; constructor; [apply uses_decimal_error|constructor]].
  apply written_bind.
  { unfold stat. destruct (os_stat pathname n); constructor. }
  intros stats Hstats. apply stat_outcome in Hstats.
  destruct (stat_size_decimal pathname n stats Hstats) as [Hout Hsize].
  apply written_bind; [exact Hout|].
  intros size Hs. destruct (Hsize size Hs) as [s [-> Hdec]]. cbn [fmt_str].
  destruct (islink n).
  { apply written_bind; [destruct n; constructor|]. intros link_to _.
    rewrite print_color_35. apply rendered_line. exact Hdec. }
  destruct (isdir pathname n).
  { apply written_bind; [apply count_file_written|]. intros counts _.
    rewrite print_color_32.
    apply (rendered_line 32 stats s
             ("F:" ++ ljust 6 (str_int (files counts))
              ++ ", D:" ++ ljust 6 (str_int (dirs counts))
              ++ ", S:" ++ ljust 6 (str_int (links counts))
              ++ ", " ++ print_mod_time h stats ++ TAB ++ basename pathname)).
    exact Hdec. }
  destruct (isfile pathname n); [|constructor].
  apply written_bind; [apply line_count_written|]. intros lines _.
  apply written_bind; [constructor|]. intros shown _.
  rewrite print_color_34. apply rendered_line. exact Hdec.
Qed.

Lemma long_rows_written pathname n stats size mod_time inode usr_grp gid_uid :
  Forall uses_decimal
    (output (long_rows pathname n stats size mod_time inode usr_grp gid_uid)).
Proof.
  unfold long_rows. destruct (isdir pathname n).
  { apply written_bind; [apply count_file_written|]. intros; constructor. }
  destruct (isfile pathname n).
  { apply written_bind; [apply line_count_written|]. intros; constructor. }
  destruct (islink n); [|constructor].
  apply written_bind; [destruct n; constructor|]. intros; constructor.
Qed.

(** Every row that [long_rows] returns carries the size it was given in the
    sixth cell. *)
Lemma long_rows_size pathname n stats s mod_time inode usr_grp gid_uid data :
  outcome (long_rows pathname n stats (Some s) mod_time inode usr_grp gid_uid) = Ret data ->
  forall row, In row data -> nth_error row 5 = Some (CStr s).
Proof.
  unfold long_rows. destruct (isdir pathname n).
  { rewrite count_file_spec, bind_run. cbn [outcome ret snd]. intros H; injection H as <-.
    intros row [<-|[]]. reflexivity. }
  destruct (isfile pathname n).
  { unfold line_count.
    destruct (open_text pathname n); cbn [bind ret raise print outcome snd];
      intro H; try discriminate; injection H as <-; intros row [<-|[]]; reflexivity. }
  destruct (islink n).
  { destruct n; cbn [readlink bind ret raise outcome snd]; intro H; try discriminate;
      injection H as <-; intros row [<-|[]]; reflexivity. }
  cbn [ret outcome snd]. intro H; injection H as <-. intros row [].
Qed.

(** Every table of long mode shows decimal sizes. *)
Lemma long_mod_written h pathname n :
  Forall uses_decimal (output (long_mod h pathname n)).
Proof.
  unfold long_mod. apply written_try; [|intros; constructor; [apply uses_decimal_error|constructor]].
  apply written_bind.
  { unfold stat. destruct (os_stat pathname n); constructor. }
  intros stats Hstats. apply stat_outcome in Hstats.
  destruct (stat_size_decimal pathname n stats Hstats) as [Hout Hsize].
  apply written_bind; [exact Hout|].
  intros size Hs. destruct (Hsize size Hs) as [s [-> Hdec]].
  assert (Htable : forall data,
             (forall row, In row data -> nth_error row 5 = Some (CStr s)) ->
             Forall uses_decimal (output ([Table headers data], Ret tt))).
  { intros data Hdata. constructor; [|constructor]. split; [reflexivity|].
    intros row Hrow. exists s. auto. }
  apply written_bind.
  - destruct (String.eqb (system h) "Windows").
    { destruct (wmi h) as [[user_name group_name]|]; [apply long_rows_written|constructor]. }
    destruct (String.eqb (system h) "Linux"); [|constructor].
    destruct (getgrgid h (st_gid stats)); [|constructor].
    destruct (getpwuid h (st_uid stats)) as [[[user_name pw_uid] pw_gid]|];
      [apply long_rows_written|constructor].
  - intros data Hdata. apply Htable.
    destruct (String.eqb (system h) "Windows").
    { destruct (wmi h) as [[user_name group_name]|]; [|discriminate].
      eapply long_rows_size. exact Hdata. }
    destruct (String.eqb (system h) "Linux").
    { destruct (getgrgid h (st_gid stats)); [|discriminate].
      destruct (getpwuid h (st_uid stats)) as [[[user_name pw_uid] pw_gid]|]; [|discriminate].
      eapply long_rows_size. exact Hdata. }
    cbn [ret outcome snd] in Hdata. injection Hdata as <-. intros row [].
Qed.

(** C10.  Every size text that either output mode writes comes from the
    decimal ladder: [stat_size] called with 1000 (the default that every
    caller in the program leaves in place) formats with [UNITS_1000], and
    every event of a run of [main], whatever the flags, the paths and the
    file system, is a diagnostic, a rendered line whose size field is a
    decimal size text, or a table whose [Size] column holds decimal size
    texts.  No unit of the binary ladder other than the shared ["B"] can
    appear there. *)
Theorem sizes_use_decimal_ladder :
  (forall h lookup a, Forall uses_decimal (output (main h lookup a)))
  /\ (forall path n size,
        outcome (stat_size path n 1000) = Ret (Some size) -> decimal_size size)
  /\ (forall unit_name,
        In unit_name UNITS_1000 -> In unit_name UNITS_1024 -> unit_name = "B").
Proof.
  split; [|split].
  - intros h lookup a. unfold main. apply written_foldM. intros [] path.
    apply written_try; [|intros; constructor; [apply uses_decimal_error|constructor]].
    destruct (args.s a); [apply short_mod_written|].
    destruct (args.l a); [apply long_mod_written|apply short_mod_written].
  - intros path n size H. unfold stat_size in H.
    destruct (negb (exists_ path n)); [discriminate|].
    destruct (get_size_returns path n) as [msgs [total Hget]]. rewrite Hget in H.
    rewrite bind_run in H. change (1000 =? 1000) with true in H. cbv iota in H.
    unfold lift in H.
    destruct (calculate_size total UNITS_1000) as [s|e] eqn:Hcalc; cbn in H;
      [|discriminate].
    injection H as <-. eapply calculate_size_decimal. exact Hcalc.
  - intros u H1 H2. cbn in H1.
    repeat (destruct H1 as [<-|H1]); try contradiction; try reflexivity;
      cbn in H2; repeat (destruct H2 as [H2|H2]); try discriminate H2; contradiction.
Qed.

(** ** The model against the shape of the source *)

(** [count_file] is [try: for entry in os.scandir(path): ... except OSError]:
    the entries are those of [scandir], and its failure is the one line. *)
Lemma count_file_scandir n : forall path counts,
  count_file path n counts
  = match scandir path n with
    | Done entries => count_entries path entries counts
    | Fails msg => print (cannot_open path msg) ;; ret counts
    end.
Proof.
  induction n as [st content|st entries _|st msg|link_to t IH|link_to msg|st content|]
    using node_induction; intros path counts; try reflexivity.
  - apply count_file_Dir.
  - cbn [count_file scandir]. apply IH.
Qed.

(** [os.walk] descends with [for dirname in dirs: if not islink(new_path)]:
    the loop over all entries in [walk] visits the same directories in the
    same order. *)
Lemma walk_below_dirs top entries :
  walk_below top entries
  = flat_map (fun e : string * node =>
                if negb (islink (snd e)) then walk (join top (fst e)) (snd e) else [])
             (filter (fun e => is_dir (snd e)) entries).
Proof.
  induction entries as [|[name child] rest IH]; [reflexivity|].
  cbn [walk_below filter snd]. rewrite IH.
  destruct (is_dir child); cbn [andb flat_map fst snd]; reflexivity.
Qed.


(** The quotient is rounded to a double before it is rounded to tenths:
    1.05 and 1.15 are not doubles, the nearest ones lie above and below. *)
Example calculate_size_1050 : calculate_size 1050 UNITS_1000 = Ret "1.1 KB".
Proof. vm_compute. reflexivity. Qed.

Example calculate_size_1150 : calculate_size 1150 UNITS_1000 = Ret "1.1 KB".
Proof. vm_compute. reflexivity. Qed.

Example calculate_size_1250 : calculate_size 1250 UNITS_1000 = Ret "1.2 KB".
Proof. vm_compute. reflexivity. Qed.

(** The totals of the specification's example, and a link to a directory. *)
Example get_size_mixed_dir : get_size "d" mixed_dir = ([], Ret 35).
Proof. vm_compute. reflexivity. Qed.

Example short_mod_missing :
  short_mod utc_linux "nowhere" Missing
  = ([Stdout "Error: [Errno 2] No such file or directory: 'nowhere'"], Ret tt).
Proof. vm_compute. reflexivity. Qed.

(** ** The claims *)

(** C1 fails on the code.  A regular file that can be stat'ed but not opened
    makes [line_count] print its message and return [None]; compact mode
    then formats [None] with [>23d], which raises a [TypeError]; neither
    [short_mod] nor [main] catches anything but [OSError], so the run ends
    there and the path that follows is never reported, although on its own
    it renders without error. *)
Theorem unreadable_file_ends_the_run :
  main utc_linux two_files (parse_args false false ["secret.txt"; "notes.txt"])
  = ([Stdout "Could not open file secret.txt. Error: [Errno 13] Permission denied: 'secret.txt'"],
     Raise (TypeError "unsupported format string passed to NoneType.__format__"))
  /\ main utc_linux two_files (parse_args false false ["notes.txt"])
     = ([Stdout (colored 34 ("-rw-r--r--, 12.0 B, " ++ rjust 23 "3"
                             ++ " lines, 01 01-1970 00:00" ++ TAB ++ "notes.txt"))],
        Ret tt)
  /\ line_count "secret.txt" secret_txt
     = ([Stdout "Could not open file secret.txt. Error: [Errno 13] Permission denied: 'secret.txt'"],
        Ret None).
Proof. repeat split; vm_compute; reflexivity. Qed.

(** C2 fails on the code.  The unit index is the floor of the logarithm and
    is not clamped: for 10^22 bytes on the decimal ladder (and 2^75 on the
    binary one) it is 7, one past the last unit, where the clamped index of
    the specification is 6, and the lookup [units[i]] raises [IndexError]
    instead of formatting with the largest unit. *)
Theorem unit_index_is_not_clamped :
  log_index (10 ^ 22) 1000 = 7
  /\ spec_clamped_index (10 ^ 22) 1000 UNITS_1000 = 6
  /\ calculate_size (10 ^ 22) UNITS_1000 = Raise (IndexError "list index out of range")
  /\ log_index (2 ^ 75) 1024 = 7
  /\ calculate_size (2 ^ 75) UNITS_1024 = Raise (IndexError "list index out of range").
Proof. repeat split; vm_compute; reflexivity. Qed.

(** C3 as stated is false: a directory holding a ten-byte file and a
    symbolic link to it is given 20 bytes, the link counting with the size
    of its target, where the regular files alone amount to 10. *)
Lemma get_size_follows_links :
  outcome (get_size "d" dir_with_link) = Ret 20
  /\ spec_regular_total dir_with_link = 10
  /\ outcome (get_size "d" dir_with_link) <> Ret (spec_regular_total dir_with_link).
Proof.
  split; [vm_compute; reflexivity|]. split; [vm_compute; reflexivity|].
  vm_compute. discriminate.
Qed.

(** C3, amended.  For every directory, [get_size] returns the sum, over the
    entries that [os.walk] lists as non-directories in the directory and in
    every subdirectory that is not a link, of the size [os.stat] reports for
    them with links followed: a regular file counts with its size, a link to
    a file with the size of its target, an entry that cannot be stat'ed with
    0; directories and links to directories count 0 themselves and a linked
    directory is not descended into. *)
Theorem get_size_directory_total :
  forall path st listing,
    outcome (get_size path (Dir st listing)) = Ret (followed_total (Dir st listing)).
Proof.
  intros path st listing. rewrite get_size_walk by apply isfile_Dir.
  cbn [outcome snd]. f_equal. apply walk_total.
Qed.

(** C4 fails on the code.  [print_mod_time] formats [st_ctime], the time of
    the last change of the inode, not [st_mtime]: a file modified at the
    epoch whose mode was changed a day later is shown by compact mode with
    the date of the second day, while long mode, which reads [st_mtime],
    shows the first. *)
Theorem compact_time_is_ctime :
  (forall h stats,
     print_mod_time h stats = strftime_short (localtime (utcoffset h) (st_ctime stats)))
  /\ print_mod_time utc_linux (plain_stat 33188 12 0 86400) = "02 01-1970 00:00"
  /\ strftime_short (localtime (utcoffset utc_linux) (st_mtime (plain_stat 33188 12 0 86400)))
     = "01 01-1970 00:00"
  /\ short_mod utc_linux "notes.txt" chmod_later
     = ([Stdout (colored 34 ("-rw-r--r--, 12.0 B, " ++ rjust 23 "3"
                             ++ " lines, 02 01-1970 00:00" ++ TAB ++ "notes.txt"))],
        Ret tt)
  /\ ctime utc_linux (st_mtime (plain_stat 33188 12 0 86400)) = "Thu Jan  1 00:00:00 1970".
Proof. split; [reflexivity|]. repeat split; vm_compute; reflexivity. Qed.




(** C5.  [count_file] tests an entry for being a symbolic link first, then
    for being a directory, then for being a regular file: a link adds one to
    [links] whatever it points at, a directory included, and nothing is
    counted or printed for what lies behind it; a directory adds one to
    [dirs] and is descended into; a regular file adds one to [files].  The
    directory of the specification's example (two regular files, a
    subdirectory with one file, and a link, here to a directory that holds
    two files) gives dirs = 1, files = 3, links = 1. *)
Theorem count_file_classifies :
  (forall path st entries counts,
     count_file path (Dir st (Done entries)) counts = count_entries path entries counts)
  /\ (forall path name link_to target rest counts,
        count_entries path ((name, Link link_to target) :: rest) counts
        = count_entries path rest (add_link counts))
  /\ (forall path name st listing rest counts,
        count_entries path ((name, Dir st listing) :: rest) counts
        = (counts' <- count_file (join path name) (Dir st listing) (add_dir counts) ;;
           count_entries path rest counts'))
  /\ (forall path name st content rest counts,
        count_entries path ((name, Reg st content) :: rest) counts
        = count_entries path rest (add_file counts))
  /\ (forall link_to st entries,
        is_dir (Link link_to (Done (Dir (Done st) (Done entries)))) = true)
  /\ count_file "d" mixed_dir FileCount_init
     = ([], Ret {| dirs := 1; files := 3; links := 1 |}).
Proof.
  split; [exact count_file_Dir|].
  repeat (split; [reflexivity|]).
  vm_compute. reflexivity.
Qed.


(** C7.  [main] renders every path in compact mode when neither flag is
    given, in long mode when [-l] is given without [-s], and in compact mode
    when [-s] is given, with or without [-l]; with no positional argument
    the paths are [["."]], otherwise the ones given.  The two modes are
    different renderers: on a three-line file one prints a line, the other a
    table. *)
Theorem main_selects_mode :
  (forall h lookup positionals,
     main h lookup (parse_args false false positionals)
     = each_path (short_mod h) lookup (args.paths (parse_args false false positionals)))
  /\ (forall h lookup positionals,
        main h lookup (parse_args false true positionals)
        = each_path (long_mod h) lookup (args.paths (parse_args false true positionals)))
  /\ (forall h lookup positionals l_given,
        main h lookup (parse_args true l_given positionals)
        = each_path (short_mod h) lookup (args.paths (parse_args true l_given positionals)))
  /\ (forall s_given l_given, args.paths (parse_args s_given l_given []) = ["."])
  /\ (forall s_given l_given path rest,
        args.paths (parse_args s_given l_given (path :: rest)) = path :: rest)
  /\ each_path (long_mod utc_linux) two_files ["notes.txt"]
     <> each_path (short_mod utc_linux) two_files ["notes.txt"].
Proof.
  repeat (split; [reflexivity|]).
  vm_compute. discriminate.
Qed.

Lemma sized_in_app dirpath fs1 fs2 :
  sized_in dirpath (fs1 ++ fs2) = (sized_in dirpath fs1 ++ sized_in dirpath fs2)%list.
Proof. apply flat_map_app. Qed.

Lemma unsized_in_app dirpath fs1 fs2 :
  unsized_in dirpath (fs1 ++ fs2) = (unsized_in dirpath fs1 ++ unsized_in dirpath fs2)%list.
Proof. apply flat_map_app. Qed.

Lemma unsized_app a b : unsized (a ++ b) = (unsized a ++ unsized b)%list.
Proof. unfold unsized. apply flat_map_app. Qed.

Lemma walk_below_app top es1 es2 :
  walk_below top (es1 ++ es2) = (walk_below top es1 ++ walk_below top es2)%list.
Proof.
  induction es1 as [|[name child] rest IH]; [reflexivity|].
  cbn [app walk_below]. rewrite IH, app_assoc. reflexivity.
Qed.

(** C8.  A subdirectory that cannot be listed is passed over without a
    word.  On a directory that holds a ten-byte file and a subdirectory that
    refuses to be listed, [get_size] returns 10 and prints nothing, while
    [count_file] on the same directory prints its [Cannot open directory]
    line for the subdirectory, and while the same walk does print an
    [Error:] line for a file it cannot stat.  In general [get_size] cannot
    tell a subdirectory that refuses to be listed from an empty one: total
    and output are the same. *)
Theorem unlisted_subdirectory_goes_unreported :
  get_size "d" locked_dir = ([], Ret 10)
  /\ count_file "d" locked_dir FileCount_init
     = ([Stdout (cannot_open "d/locked" "[Errno 13] Permission denied: 'd/locked'")],
        Ret {| dirs := 1; files := 1; links := 0 |})
  /\ get_size "d" sizes_dir
     = ([error_line "[Errno 2] No such file or directory: 'd/sub/gone'"], Ret 65)
  /\ (forall path st before name st' msg after,
        get_size path (Dir st (Done (before ++ (name, Dir st' (Fails msg)) :: after)%list))
        = get_size path (Dir st (Done (before ++ (name, Dir st' (Done [])) :: after)%list))).
Proof.
  do 3 (split; [vm_compute; reflexivity|]).
  intros path st before name st' msg after.
  rewrite !get_size_walk by apply isfile_Dir. rewrite !walk_Dir, !filter_app.
  cbn [filter snd is_dir negb]. rewrite !walk_below_app. cbn [walk_below walk].
  cbn [is_dir islink andb negb filter app].
  set (files_here := (filter _ before ++ filter _ after)%list).
  set (dirs_one := (filter _ before ++ _ :: filter _ after)%list).
  set (dirs_two := (filter _ before ++ _ :: filter _ after)%list).
  change ((path, dirs_one, files_here)
          :: (walk_below path before ++ walk_below path after)%list)
    with ([(path, dirs_one, files_here)]
          ++ walk_below path before ++ walk_below path after)%list.
  change ((path, dirs_two, files_here)
          :: (walk_below path before
              ++ (join path name, [], []) :: walk_below path after)%list)
    with ([(path, dirs_two, files_here)]
          ++ walk_below path before
          ++ [(join path name, [], [])] ++ walk_below path after)%list.
  rewrite !unsized_app, !sized_app. reflexivity.
Qed.

(** X21.  The walk of a directory raises nothing: [get_size] returns the sum
    of the sizes of the entries it could size and prints one [Error:] line
    for each entry it could not, in the order of the walk.  In the loop over
    the files of one directory an entry that cannot be stat'ed adds its line
    and nothing else: the total is the one of the entries before and after
    it.  Five files of 10, 20, 30, 5 and a nested one that is gone give 65
    and one line. *)
Theorem get_size_reports_unsized_entries :
  (forall path st listing,
     get_size path (Dir st listing)
     = (map error_line (unsized (walk path (Dir st listing))),
        Ret (Zsum (sized (walk path (Dir st listing))))))
  /\ (forall dirpath before name msg content after total,
        foldM (add_size dirpath) (before ++ (name, Reg (Fails msg) content) :: after) total
        = (map error_line (unsized_in dirpath before ++ [msg] ++ unsized_in dirpath after)%list,
           Ret (total + (Zsum (sized_in dirpath before) + Zsum (sized_in dirpath after)))))
  /\ get_size "d" sizes_dir
     = ([error_line "[Errno 2] No such file or directory: 'd/sub/gone'"], Ret 65).
Proof.
  split; [intros; apply get_size_walk, isfile_Dir|]. split; [|vm_compute; reflexivity].
  intros dirpath before name msg content after total.
  rewrite get_size_files, unsized_in_app, sized_in_app, Zsum_app. reflexivity.
Qed.

(** C9.  A size of zero or less gives ["0 B"] on either ladder; the four
    examples of the specification hold; and the number printed is the
    quotient (as a double) rounded to one decimal place: it is written as
    the tenths [t] nearest to the quotient, integer part, point, last digit,
    and [t / 10] is within a twentieth of the quotient. *)
Theorem calculate_size_examples :
  forall size units, size <= 0 ->
    calculate_size size units = Ret "0 B"
    /\ calculate_size 0 UNITS_1000 = Ret "0 B"
    /\ calculate_size 999 UNITS_1000 = Ret "999.0 B"
    /\ calculate_size 1000 UNITS_1000 = Ret "1.0 KB"
    /\ calculate_size 1024 UNITS_1024 = Ret "1.0 KiB"
    /\ calculate_size 1536 UNITS_1024 = Ret "1.5 KiB"
    /\ (forall v,
          format_1f v = str_int (tenths v / 10) ++ "." ++ str_int (tenths v mod 10)
          /\ (Qabs (inject_Z (tenths v) / 10 - v) <= 1 # 20)%Q)
    /\ (forall positive ladder text,
          calculate_size (Z.pos positive) ladder = Ret text ->
          exists base unit_name,
            text = format_1f (true_div (Z.pos positive)
                                       (base ^ log_index (Z.pos positive) base))
                   ++ " " ++ unit_name).
Proof.
  intros size units Hsize. split.
  { unfold calculate_size. destruct (Z.leb_spec size 0); [reflexivity|lia]. }
  do 5 (split; [vm_compute; reflexivity|]).
  split.
  - intro v. split; [reflexivity|apply tenths_near].
  - intros positive ladder text. unfold calculate_size.
    change (Z.pos positive <=? 0) with false. cbv iota.
    set (base := if list_eqb ladder UNITS_1000 then 1000 else 1024).
    destruct (getitem ladder (log_index (Z.pos positive) base)) as [u|e]; [|discriminate].
    intro H. injection H as <-. exists base, u. reflexivity.
Qed.

Lemma calculate_size_examples_witness :
  calculate_size (-7) UNITS_1024 = Ret "0 B".
Proof.
  apply (calculate_size_examples (-7) UNITS_1024). lia.
Defined.

(** ** More of the program: runs, failures and what is printed *)

Lemma bind_assoc {A B C} (m : M A) (k : A -> M B) (k' : B -> M C) :
  bind (bind m k) k' = bind m (fun a => bind (k a) k').
Proof.
  destruct m as [out [a|e]]; cbn [bind]; [|reflexivity].
  destruct (k a) as [out1 [b|e]]; cbn [bind]; [|reflexivity].
  destruct (k' b) as [out2 r]. rewrite app_assoc. reflexivity.
Qed.

Lemma bind_ext {A B} (m : M A) (k k' : A -> M B) :
  (forall a, k a = k' a) -> bind m k = bind m k'.
Proof. intro H. destruct m as [out [a|e]]; cbn [bind]; [rewrite H|]; reflexivity. Qed.

Lemma foldM_app {A B} (f : B -> A -> M B) (l1 l2 : list A) : forall b,
  foldM f (l1 ++ l2) b = (b' <- foldM f l1 b ;; foldM f l2 b').
Proof.
  induction l1 as [|a l1 IH]; intro b; cbn [app foldM].
  - rewrite bind_ret_l. reflexivity.
  - rewrite bind_assoc. apply bind_ext. intro b'. apply IH.
Qed.

Lemma try_run {A} (out : list event) (r : res A) (handler : string -> M A) :
  try_OSError (out, r) handler
  = match r with
    | Raise (OSError msg) => ((out ++ output (handler msg))%list, outcome (handler msg))
    | _ => (out, r)
    end.
Proof.
  destruct r as [a|[msg|msg|msg|msg|msg|msg]]; cbn [try_OSError]; try reflexivity.
  destruct (handler msg). reflexivity.
Qed.

(** A handler that only prints turns every [OSError] into a return. *)
Lemma try_print_outcome (m : M unit) (line : string -> string) msg :
  outcome (try_OSError m (fun msg => print (line msg))) <> Raise (OSError msg).
Proof.
  destruct m as [out [[]|[m'|m'|m'|m'|m'|m']]]; cbn; discriminate.
Qed.

(** Where nothing raises [OSError], the [try] is the body. *)
Lemma try_unused {A} (m : M A) (handler : string -> M A) :
  (forall msg, outcome m <> Raise (OSError msg)) -> try_OSError m handler = m.
Proof.
  destruct m as [out [a|[msg|msg|msg|msg|msg|msg]]]; cbn; intro H; try reflexivity.
  destruct (H msg eq_refl).
Qed.

(** X1.  Neither renderer lets an [OSError] out: each catches it and prints
    its line.  The [except OSError] of [main] therefore never runs, and
    [main] is the plain loop over the paths with the selected renderer. *)
Theorem main_handler_never_runs :
  (forall h pathname n msg, outcome (short_mod h pathname n) <> Raise (OSError msg))
  /\ (forall h pathname n msg, outcome (long_mod h pathname n) <> Raise (OSError msg))
  /\ (forall h lookup a,
        main h lookup a
        = foldM (fun _ path =>
                   if args.s a then short_mod h path (lookup path)
                   else if args.l a then long_mod h path (lookup path)
                   else short_mod h path (lookup path))
                (args.paths a) tt).
Proof.
  split; [|split].
  - intros. apply try_print_outcome.
  - intros. apply try_print_outcome.
  - intros h lookup a. unfold main. generalize tt.
    induction (args.paths a) as [|path rest IH]; intro u; cbn [foldM]; [reflexivity|].
    rewrite try_unused.
    + apply bind_ext. exact IH.
    + intro msg. destruct (args.s a); [apply try_print_outcome|].
      destruct (args.l a); apply try_print_outcome.
Qed.

(** X2.  The paths are independent: a run over two lists of paths, one
    after the other, is the run over the first followed (if it ended without
    an exception) by the run over the second, with the same flags. *)
Theorem main_runs_paths_in_sequence :
  forall h lookup s_given l_given paths1 paths2,
    main h lookup {| args.s := s_given; args.l := l_given; args.paths := paths1 ++ paths2 |}
    = (main h lookup {| args.s := s_given; args.l := l_given; args.paths := paths1 |} ;;
       main h lookup {| args.s := s_given; args.l := l_given; args.paths := paths2 |}).
Proof.
  intros. unfold main. cbn [args.s args.l args.paths].
  rewrite foldM_app. apply bind_ext. intros []. reflexivity.
Qed.

(** X3.  A path that cannot be stat'ed (it does not exist, or a link on
    the way is broken) costs one line, [Error:] and the message of the
    system, in either mode, and the run goes on with the paths that
    follow. *)
Theorem unstatable_path_is_reported :
  forall h lookup s_given l_given path rest msg,
    os_stat path (lookup path) = Fails msg ->
    short_mod h path (lookup path) = ([Stdout ("Error: " ++ msg)], Ret tt)
    /\ long_mod h path (lookup path) = ([Stdout ("Error: " ++ msg)], Ret tt)
    /\ main h lookup {| args.s := s_given; args.l := l_given; args.paths := path :: rest |}
       = (Stdout ("Error: " ++ msg)
            :: output (main h lookup
                         {| args.s := s_given; args.l := l_given; args.paths := rest |}),
          outcome (main h lookup
                     {| args.s := s_given; args.l := l_given; args.paths := rest |})).
Proof.
  intros h lookup s_given l_given path rest msg Hstat.
  assert (Hs : short_mod h path (lookup path) = ([Stdout ("Error: " ++ msg)], Ret tt)).
  { unfold short_mod, stat. rewrite Hstat. reflexivity. }
  assert (Hl : long_mod h path (lookup path) = ([Stdout ("Error: " ++ msg)], Ret tt)).
  { unfold long_mod, stat. rewrite Hstat. reflexivity. }
  split; [exact Hs|]. split; [exact Hl|].
  unfold main. cbn [args.s args.l args.paths foldM].
  rewrite Hs, Hl.
  destruct s_given, l_given; cbn [try_OSError]; rewrite bind_run; reflexivity.
Qed.

Lemma unstatable_path_is_reported_witness :
  short_mod utc_linux "nowhere" (two_files "nowhere")
  = ([Stdout ("Error: " ++ enoent "nowhere")], Ret tt).
Proof.
  apply (unstatable_path_is_reported utc_linux two_files false false "nowhere" []
           (enoent "nowhere")).
  reflexivity.
Defined.

(** The only exception of [calculate_size] is the one of the unit lookup. *)
Lemma calculate_size_raises size units e :
  calculate_size size units = Raise e -> e = IndexError "list index out of range".
Proof.
  unfold calculate_size. destruct (size <=? 0); [discriminate|].
  set (base := if list_eqb units UNITS_1000 then 1000 else 1024).
  unfold getitem. destruct (_ && _).
  - destruct (nth_error units _); intro H; [discriminate|]. injection H as <-. reflexivity.
  - intro H. injection H as <-. reflexivity.
Qed.

Lemma stat_size_raises path n multiplier e :
  outcome (stat_size path n multiplier) = Raise e ->
  e = IndexError "list index out of range".
Proof.
  unfold stat_size. destruct (negb (exists_ path n)); [discriminate|].
  destruct (get_size_returns path n) as [msgs [total ->]]. rewrite bind_run.
  unfold lift.
  destruct (calculate_size total _) as [s|e'] eqn:Hcalc; cbn; [discriminate|].
  intro H. injection H as <-. eapply calculate_size_raises. exact Hcalc.
Qed.

Lemma stat_size_some path n stats msgs total s :
  os_stat path n = Done stats ->
  get_size path n = (map error_line msgs, Ret total) ->
  calculate_size total UNITS_1000 = Ret s ->
  stat_size path n 1000 = (map error_line msgs, Ret (Some s)).
Proof.
  intros Hstat Hget Hcalc. unfold stat_size, exists_, stat_ok. rewrite Hstat. cbn [negb].
  rewrite Hget, bind_run. change (1000 =? 1000) with true. cbv iota.
  rewrite Hcalc. cbn [lift bind ret output outcome fst snd app]. rewrite app_nil_r.
  reflexivity.
Qed.

Lemma FileCount_plus_init_l c : FileCount_plus FileCount_init c = c.
Proof. count_arith. Qed.





(** X4.  The compact report on a regular file that cannot be read.  When
    [open] refuses the file, [line_count] prints its line and returns
    [None], and formatting [None] with [>23d] ends the report with a
    [TypeError].  When the file opens but is not text in the expected
    encoding, the [UnicodeDecodeError] of the read leaves [line_count] and
    [short_mod], and nothing at all is printed.  In neither case is the
    line of the report written. *)
Theorem short_mod_unreadable_file :
  forall h pathname stats s,
    calculate_size (st_size stats) UNITS_1000 = Ret s ->
    (forall msg,
       short_mod h pathname (Reg (Done stats) (OpenFails msg))
       = ([Stdout ("Could not open file " ++ pathname ++ ". Error: " ++ msg)],
          Raise (TypeError "unsupported format string passed to NoneType.__format__")))
    /\ (forall msg,
          short_mod h pathname (Reg (Done stats) (DecodeFails msg))
          = ([], Raise (UnicodeDecodeError msg))).
Proof.
  intros h pathname stats s Hcalc. split; intro msg.
  - set (f := Reg (Done stats) (OpenFails msg)) in *.
    assert (Hstat : os_stat pathname f = Done stats) by reflexivity.
    assert (Hget : get_size pathname f = (map error_line [], Ret (st_size stats)))
      by reflexivity.
    unfold short_mod, stat. rewrite Hstat, bind_ret_l.
    rewrite (stat_size_some pathname f stats _ _ s Hstat Hget Hcalc), bind_run.
    change (islink f) with false. cbv iota.
    change (isdir pathname f) with false. cbv iota.
    change (isfile pathname f) with true. cbv iota.
    unfold line_count. change (open_text pathname f) with (OpenFails msg). cbv iota.
    cbn [bind print ret lift fmt_int_right output outcome fst snd map app].
    rewrite try_run. reflexivity.
  - set (f := Reg (Done stats) (DecodeFails msg)) in *.
    assert (Hstat : os_stat pathname f = Done stats) by reflexivity.
    assert (Hget : get_size pathname f = (map error_line [], Ret (st_size stats)))
      by reflexivity.
    unfold short_mod, stat. rewrite Hstat, bind_ret_l.
    rewrite (stat_size_some pathname f stats _ _ s Hstat Hget Hcalc), bind_run.
    change (islink f) with false. cbv iota.
    change (isdir pathname f) with false. cbv iota.
    change (isfile pathname f) with true. cbv iota.
    unfold line_count. change (open_text pathname f) with (DecodeFails msg). cbv iota.
    cbn [bind raise output outcome fst snd map app].
    rewrite try_run. reflexivity.
Qed.

Lemma short_mod_unreadable_file_witness :
  short_mod utc_linux "secret.txt" secret_txt
  = ([Stdout "Could not open file secret.txt. Error: [Errno 13] Permission denied: 'secret.txt'"],
     Raise (TypeError "unsupported format string passed to NoneType.__format__")).
Proof.
  refine (proj1 (short_mod_unreadable_file utc_linux "secret.txt" (plain_stat 32768 12 0 0)
                   "12.0 B" _)
                "[Errno 13] Permission denied: 'secret.txt'").
  vm_compute. reflexivity.
Defined.







Section lines_only.
Variable P : event -> Prop.
Hypothesis P_line : forall line, P (Stdout line).

Lemma lines_map (lines : list string) : Forall P (map Stdout lines).
Proof. apply Forall_forall. intros ev Hin. apply in_map_iff in Hin.
       destruct Hin as [line [<- _]]. apply P_line. Qed.

Lemma lines_get_size path n : Forall P (output (get_size path n)).
Proof.
  destruct (get_size_returns path n) as [msgs [total ->]]. cbn [output fst].
  apply Forall_forall. intros ev Hin. apply in_map_iff in Hin.
  destruct Hin as [msg [<- _]]. apply P_line.
Qed.

Lemma lines_stat_size path n multiplier : Forall P (output (stat_size path n multiplier)).
Proof.
  unfold stat_size. destruct (negb (exists_ path n)).
  - cbn. constructor; [apply P_line|constructor].
  - apply written_bind; [apply lines_get_size|]. intros size _.
    apply written_bind; [constructor|]. intros; constructor.
Qed.

Lemma lines_count_file path n counts : Forall P (output (count_file path n counts)).
Proof. rewrite count_file_spec. apply lines_map. Qed.

Lemma lines_line_count filename n : Forall P (output (line_count filename n)).
Proof.
  unfold line_count. destruct (open_text filename n); cbn; constructor;
    [apply P_line|constructor].
Qed.
End lines_only.

(** The rows [long_rows] returns when the path is a directory or a file
    have an empty last cell. *)
Lemma long_rows_link_cell pathname n stats size mod_time inode usr_grp gid_uid data :
  outcome (long_rows pathname n stats size mod_time inode usr_grp gid_uid) = Ret data ->
  forall row link_to, In row data -> nth_error row 8 = Some (CStr link_to) ->
    isdir pathname n = false /\ isfile pathname n = false /\ islink n = true.
Proof.
  unfold long_rows. destruct (isdir pathname n).
  { rewrite count_file_spec, bind_run. cbn [outcome ret snd]. intros H; injection H as <-.
    intros row link_to [<-|[]]. discriminate. }
  destruct (isfile pathname n).
  { unfold line_count.
    destruct (open_text pathname n); cbn [bind ret raise print outcome snd];
      intro H; try discriminate; injection H as <-; intros row link_to [<-|[]]; discriminate. }
  destruct (islink n).
  { intros _ row link_to _ _. auto. }
  cbn [ret outcome snd]. intro H; injection H as <-. intros row link_to [].
Qed.

(** X11.  In long mode the [Link] column is filled only for a symbolic
    link that resolves to something that is neither a directory nor a
    regular file: the directory and file tests come first and follow the
    link, so an ordinary link to a file or directory is reported as its
    target and its own text is not shown. *)
Theorem long_mod_link_column :
  forall h pathname n hs data row link_to,
    In (Table hs data) (output (long_mod h pathname n)) ->
    In row data ->
    nth_error row 8 = Some (CStr link_to) ->
    isdir pathname n = false /\ isfile pathname n = false /\ islink n = true.
Proof.
  intros h pathname n hs data row link_to Hin Hrow Hcell.
  pose (P := fun ev : event =>
               match ev with
               | Stdout _ => True
               | Table _ data' =>
                   forall row' link', In row' data' ->
                     nth_error row' 8 = Some (CStr link') ->
                     isdir pathname n = false /\ isfile pathname n = false
                     /\ islink n = true
               end).
  assert (Pl : forall line, P (Stdout line)) by (intro; exact I).
  assert (Hall : Forall P (output (long_mod h pathname n))).
  { unfold long_mod. apply written_try; [|intros; constructor; [apply Pl|constructor]].
    apply written_bind.
    { unfold stat. destruct (os_stat pathname n); constructor. }
    intros stats _. apply written_bind; [apply lines_stat_size; exact Pl|].
    intros size _.
    assert (Hrows : forall usr_grp gid_uid,
               Forall P (output (long_rows pathname n stats size
                                           (ctime h (st_mtime stats)) (st_ino stats)
                                           usr_grp gid_uid))).
    { intros. unfold long_rows. destruct (isdir pathname n).
      { apply written_bind; [apply lines_count_file; exact Pl|]. intros; constructor. }
      destruct (isfile pathname n).
      { apply written_bind; [apply lines_line_count; exact Pl|]. intros; constructor. }
      destruct (islink n); [|constructor].
      apply written_bind; [destruct n; constructor|]. intros; constructor. }
    apply written_bind.
    - destruct (String.eqb (system h) "Windows").
      { destruct (wmi h) as [[user_name group_name]|]; [apply Hrows|constructor]. }
      destruct (String.eqb (system h) "Linux"); [|constructor].
      destruct (getgrgid h (st_gid stats)); [|constructor].
      destruct (getpwuid h (st_uid stats)) as [[[user_name pw_uid] pw_gid]|];
        [apply Hrows|constructor].
    - intros data' Hdata. constructor; [|constructor]. cbn.
      intros row' link' Hrow' Hcell'.
      destruct (String.eqb (system h) "Windows").
      { destruct (wmi h) as [[user_name group_name]|]; [|discriminate].
        eapply long_rows_link_cell; eassumption. }
      destruct (String.eqb (system h) "Linux").
      { destruct (getgrgid h (st_gid stats)); [|discriminate].
        destruct (getpwuid h (st_uid stats)) as [[[user_name pw_uid] pw_gid]|];
          [|discriminate].
        eapply long_rows_link_cell; eassumption. }
      cbn [ret outcome snd] in Hdata. injection Hdata as <-. destruct Hrow'. }
  rewrite Forall_forall in Hall. apply (Hall _ Hin row link_to Hrow Hcell).
Qed.



Lemma long_mod_link_column_witness :
  isdir "p" pipe_link = false /\ isfile "p" pipe_link = false /\ islink pipe_link = true.
Proof.
  apply (long_mod_link_column utc_linux "p" pipe_link headers
           [[CStr "p"; CNone; CStr "600"; CStr "alice / users"; CStr "1000 / 1000";
             CStr "0 B"; CStr "Thu Jan  1 00:00:00 1970"; CInt 42; CStr "queue"]]
           [CStr "p"; CNone; CStr "600"; CStr "alice / users"; CStr "1000 / 1000";
            CStr "0 B"; CStr "Thu Jan  1 00:00:00 1970"; CInt 42; CStr "queue"]
           "queue").
  - vm_compute. left. reflexivity.
  - left. reflexivity.
  - reflexivity.
Defined.

Lemma walk_unlistable n : forall top msg, scandir top n = Fails msg -> walk top n = [].
Proof.
  induction n as [st content|st entries _|st msg'|link_to t IH|link_to msg'|st content|]
    using node_induction; intros top msg H; try reflexivity.
  - discriminate H.
  - cbn [walk]. eapply IH. exact H.
Qed.

(** X12.  What cannot be listed weighs nothing and is not mentioned.  For
    a path that is not a regular file and that [os.scandir] refuses (it
    names nothing, a broken link, a fifo or a device, or a directory that
    may not be listed) [get_size] returns 0 and prints nothing; when the
    path can be stat'ed, [stat_size] therefore shows it as [0 B], whatever
    size [os.stat] reports for it. *)
Theorem get_size_of_unlistable_path :
  forall path n msg,
    embedded_nul path = false ->
    isfile path n = false ->
    scandir path n = Fails msg ->
    get_size path n = ([], Ret 0)
    /\ (exists_ path n = true ->
        forall multiplier, stat_size path n multiplier = ([], Ret (Some "0 B"))).
Proof.
  intros path n msg _ Hfile Hscan.
  assert (Hget : get_size path n = ([], Ret 0)).
  { rewrite get_size_walk by exact Hfile. rewrite (walk_unlistable n path msg Hscan).
    reflexivity. }
  split; [exact Hget|].
  intros Hexists multiplier. unfold stat_size. rewrite Hexists, Hget. reflexivity.
Qed.

Lemma get_size_of_unlistable_path_witness :
  get_size "d/locked" locked_subdir = ([], Ret 0)
  /\ stat_size "d/locked" locked_subdir 1000 = ([], Ret (Some "0 B")).
Proof.
  destruct (get_size_of_unlistable_path "d/locked" locked_subdir
              "[Errno 13] Permission denied: 'd/locked'"
              eq_refl eq_refl eq_refl) as [Hget Hshown].
  split; [exact Hget|]. apply Hshown. reflexivity.
Defined.

(** X13.  A symbolic link to a directory is sized differently by where it
    stands: given as the path itself it is followed and sized as the
    directory, found inside a directory that is walked it adds nothing. *)
Theorem symlinked_directory_size :
  (forall path link_to st listing,
     get_size path (Link link_to (Done (Dir (Done st) listing)))
     = get_size path (Dir (Done st) listing))
  /\ (forall path st0 name link_to st listing,
        get_size path (Dir st0 (Done [(name, Link link_to (Done (Dir (Done st) listing)))]))
        = ([], Ret 0)).
Proof.
  split.
  - intros. unfold get_size, isfile. cbn [resolve walk]. rewrite !andb_false_r. reflexivity.
  - intros. rewrite get_size_walk by apply isfile_Dir. reflexivity.
Qed.

Lemma tally_nonneg n : 0 <= dirs (tally n) /\ 0 <= files (tally n) /\ 0 <= links (tally n).
Proof.
  induction n as [st content|st entries IH|st msg|link_to t IH|link_to msg|st content|]
    using node_induction;
    try (cbn [tally FileCount_init dirs files links]; lia).
  rewrite tally_Dir.
    induction IH as [|[name entry] rest Hentry _ IHrest];
      [cbn [tally_entries FileCount_init dirs files links]; lia|].
    cbn [tally_entries]. cbn [snd] in Hentry. unfold tally_entry.
    destruct (tally_entries rest) as [d1 f1 l1], (tally entry) as [d2 f2 l2].
    cbn [dirs files links] in *.
    destruct (is_symlink entry);
      [unfold FileCount_plus, add_link, FileCount_init; cbn [dirs files links]; lia|].
    destruct (is_dir entry);
      [unfold FileCount_plus, add_dir; cbn [dirs files links]; lia|].
    destruct (is_file entry);
      unfold FileCount_plus, add_file, FileCount_init; cbn [dirs files links]; lia.
Qed.

(** X14.  The accumulator is only added to: counting into given counts
    gives those counts plus what counting into fresh ones gives, and prints
    the same lines. *)
Theorem count_file_adds_to_counts :
  forall path n counts,
  exists counted,
    count_file path n FileCount_init = (output (count_file path n FileCount_init), Ret counted)
    /\ count_file path n counts
       = (output (count_file path n FileCount_init), Ret (FileCount_plus counts counted)).
Proof.
  intros path n counts. exists (tally n). rewrite !count_file_spec.
  rewrite FileCount_plus_init_l. split; reflexivity.
Qed.

(** X15.  Counting from fresh counts never gives a negative count. *)
Theorem count_file_counts_are_natural :
  forall path n,
  exists counted,
    outcome (count_file path n FileCount_init) = Ret counted
    /\ 0 <= dirs counted /\ 0 <= files counted /\ 0 <= links counted.
Proof.
  intros path n. exists (tally n). rewrite count_file_spec, FileCount_plus_init_l.
  split; [reflexivity|]. apply tally_nonneg.
Qed.

(** X16.  [stat_size] on a path that cannot be stat'ed prints
    [Error: Path does not exist.] and returns [None]; it does not raise the
    [FileNotFoundError] its docstring announces.  On a path that can be
    stat'ed it never returns [None], and its only exception is the
    [IndexError] of a total past the end of the ladder. *)
Theorem stat_size_missing_path :
  (forall path n multiplier msg,
     os_stat path n = Fails msg ->
     stat_size path n multiplier = ([Stdout "Error: Path does not exist."], Ret None))
  /\ (forall path n multiplier stats,
        os_stat path n = Done stats -> outcome (stat_size path n multiplier) <> Ret None)
  /\ (forall path n multiplier e,
        outcome (stat_size path n multiplier) = Raise e ->
        e = IndexError "list index out of range").
Proof.
  split; [|split].
  - intros path n multiplier msg Hstat. unfold stat_size, exists_, stat_ok.
    rewrite Hstat. reflexivity.
  - intros path n multiplier stats Hstat. unfold stat_size, exists_, stat_ok.
    rewrite Hstat. cbn [negb].
    destruct (get_size_returns path n) as [msgs [total ->]]. rewrite bind_run.
    unfold lift. destruct (calculate_size total _); cbn; discriminate.
  - intros. eapply stat_size_raises. eassumption.
Qed.

(** ** Escape sequences *)

Lemma append_assoc (a b c : string) : (a ++ b) ++ c = a ++ b ++ c.
Proof. induction a as [|x a IH]; cbn [append]; [reflexivity|]. rewrite IH. reflexivity. Qed.

Lemma append_nil_r (a : string) : a ++ "" = a.
Proof. induction a as [|x a IH]; cbn [append]; [reflexivity|]. rewrite IH. reflexivity. Qed.

Lemma rstrip_cons_keep c s :
  Ascii.eqb c ";" = false -> rstrip_semicolon s = s ->
  rstrip_semicolon (String c s) = String c s.
Proof.
  intros Hc Hs. cbn [rstrip_semicolon]. rewrite Hs, Hc. destruct s; reflexivity.
Qed.

Lemma rstrip_digits d :
  rstrip_semicolon (NilEmpty.string_of_uint d) = NilEmpty.string_of_uint d.
Proof.
  induction d; cbn [NilEmpty.string_of_uint]; [reflexivity|..];
    (apply rstrip_cons_keep; [reflexivity|assumption]).
Qed.

Lemma rstrip_str_int z : rstrip_semicolon (str_int z) = str_int z /\ str_int z <> "".
Proof.
  unfold str_int, NilZero.string_of_int, NilZero.string_of_uint.
  destruct (Z.to_int z) as [d|d].
  - destruct d; try (split; [apply (rstrip_digits (_ _))|discriminate]).
    split; [reflexivity|discriminate].
  - split; [|discriminate]. apply rstrip_cons_keep; [reflexivity|].
    destruct d; try apply (rstrip_digits (_ _)). reflexivity.
Qed.

(** Stripping ignores one more semicolon at the end, and leaves alone a
    text whose end it leaves alone. *)
Lemma rstrip_semicolon_end s : rstrip_semicolon (s ++ ";") = rstrip_semicolon s.
Proof.
  induction s as [|c s IH]; [reflexivity|].
  cbn [append rstrip_semicolon]. rewrite IH. reflexivity.
Qed.

Lemma rstrip_kept_end s t :
  rstrip_semicolon t = t -> t <> "" -> rstrip_semicolon (s ++ t) = s ++ t.
Proof.
  intros Ht Hne. induction s as [|c s IH]; [exact Ht|].
  cbn [append rstrip_semicolon]. rewrite IH.
  destruct (s ++ t) eqn:Hst; [|reflexivity].
  destruct s; [cbn in Hst; contradiction|discriminate].
Qed.

Lemma rstrip_code s z : rstrip_semicolon ((s ++ str_int z) ++ ";") = s ++ str_int z.
Proof.
  rewrite rstrip_semicolon_end.
  destruct (rstrip_str_int z). apply rstrip_kept_end; assumption.
Qed.

(** X17.  The escape sequence of [print_color]: the codes that are given
    and are not 0, the attribute first, then the foreground, then the
    background, separated by semicolons, between [ESC[] and [m]; then the
    text; then the reset [ESC[0m].  A code of 0 is left out like a missing
    one, and with no code at all the sequence is [ESC[m]. *)
Theorem print_color_sequence :
  forall text fg bg attr,
    print_color text fg bg attr
    = print (ESC ++ "[" ++ String.concat ";" (map str_int (chosen attr ++ chosen fg ++ chosen bg))
             ++ "m" ++ text ++ ESC ++ "[0m").
Proof.
  intros text fg bg attr. unfold print_color, given, chosen.
  destruct attr as [a|]; [destruct (a =? 0)|];
    (destruct fg as [f|]; [destruct (f =? 0)|]);
    (destruct bg as [b|]; [destruct (b =? 0)|]);
    cbn [app map String.concat]; f_equal;
    rewrite <- ?append_assoc, ?append_nil_r, ?rstrip_code; reflexivity.
Qed.

(** ** Widths and small sizes *)

Lemma length_append (a b : string) :
  String.length (a ++ b) = (String.length a + String.length b)%nat.
Proof. induction a as [|x a IH]; cbn [append String.length]; [reflexivity|]. rewrite IH. reflexivity. Qed.

(** A property checked on every integer of a range holds on the range. *)
Lemma range_check_from (P : Z -> bool) (count : nat) : forall lo,
  range_check P count lo = true ->
  forall z, lo <= z < lo + Z.of_nat count -> P z = true.
Proof.
  induction count as [|k IH]; intros lo Hall z Hz; [lia|].
  cbn [range_check] in Hall. apply andb_prop in Hall. destruct Hall as [Hlo Hrest].
  destruct (Z.eq_dec z lo) as [->|Hne]; [exact Hlo|].
  apply (IH (lo + 1) Hrest). lia.
Qed.

Lemma Z_range_forall (P : Z -> bool) (lo len : Z) :
  range_check P (Z.to_nat len) lo = true ->
  forall z, lo <= z < lo + len -> P z = true.
Proof.
  intros Hall z Hz. apply (range_check_from P (Z.to_nat len) lo Hall). lia.
Qed.

Lemma filetype_length mode : String.length (filetype mode) = 1%nat.
Proof. unfold filetype. repeat (destruct (_ =? _); [reflexivity|]). reflexivity. Qed.

Lemma rw_length mode bit c :
  String.length c = 1%nat -> String.length (rw mode bit c) = 1%nat.
Proof. intro Hc. unfold rw. destruct (has mode bit); [exact Hc|reflexivity]. Qed.

Lemma exec_char_length mode xbit sbit both special :
  String.length both = 1%nat -> String.length special = 1%nat ->
  String.length (exec_char mode xbit sbit both special) = 1%nat.
Proof.
  intros Hb Hs. unfold exec_char.
  repeat (destruct (has mode _); [assumption || reflexivity|]). reflexivity.
Qed.

(** X18.  The permission text always has ten characters, whatever the mode:
    the type and three times read, write, execute. *)
Theorem print_permissions_width :
  forall stats, String.length (print_permissions stats) = 10%nat.
Proof.
  intro stats. unfold print_permissions, filemode.
  rewrite !length_append, filetype_length.
  rewrite !rw_length, !exec_char_length by reflexivity. reflexivity.
Qed.

Lemma two_digits_length n : 0 <= n < 100 -> String.length (two_digits n) = 2%nat.
Proof.
  intro Hn. apply Nat.eqb_eq.
  apply (Z_range_forall (fun n => Nat.eqb (String.length (two_digits n)) 2) 0 100);
    [vm_compute; reflexivity|lia].
Qed.

Lemma four_digits_length y : 1000 <= y <= 9999 -> String.length (str_int y) = 4%nat.
Proof.
  intro Hy. apply Nat.eqb_eq.
  apply (Z_range_forall (fun y => Nat.eqb (String.length (str_int y)) 4) 1000 9000);
    [vm_compute; reflexivity|lia].
Qed.

(** The month and the day that [civil_from_days] returns are a month and
    a day. *)
Lemma civil_from_days_fields days :
  1 <= snd (fst (civil_from_days days)) <= 12 /\ 1 <= snd (civil_from_days days) <= 31.
Proof.
  unfold civil_from_days. cbv zeta. cbn [fst snd].
  set (doe := days + 719468 - (days + 719468) / 146097 * 146097).
  assert (Hdoe : 0 <= doe <= 146096).
  { subst doe. pose proof (Z.div_mod (days + 719468) 146097 ltac:(lia)).
    pose proof (Z.mod_pos_bound (days + 719468) 146097 ltac:(lia)). lia. }
  clearbody doe.
  set (yoe := (doe - doe / 1460 + doe / 36524 - doe / 146096) / 365).
  set (doy := doe - (365 * yoe + yoe / 4 - yoe / 100)).
  assert (Hdoy : 0 <= doy <= 365).
  { subst doy yoe. Z.to_euclidean_division_equations; lia. }
  clearbody doy. clear yoe Hdoe doe.
  set (mp := (5 * doy + 2) / 153).
  assert (Hmp : 0 <= mp <= 11 /\ 1 <= doy - (153 * mp + 2) / 5 + 1 <= 31).
  { subst mp. Z.to_euclidean_division_equations; lia. }
  clearbody mp. destruct (Z.ltb_spec mp 10); lia.
Qed.

(** X19.  The time stamp of compact mode has sixteen characters, day,
    month, year, hour and minute, whenever the local year of the stamp has
    four digits. *)
Theorem print_mod_time_width :
  forall h stats,
    1000 <= tm_year (localtime (utcoffset h) (st_ctime stats)) <= 9999 ->
    String.length (print_mod_time h stats) = 16%nat.
Proof.
  intros h stats Hyear. unfold print_mod_time, strftime_short.
  set (t := localtime (utcoffset h) (st_ctime stats)) in *.
  assert (Hfields : 1 <= tm_mon t <= 12 /\ 1 <= tm_mday t <= 31
                    /\ 0 <= tm_hour t < 24 /\ 0 <= tm_min t < 60).
  { subst t. unfold localtime, gmtime.
    set (secs := st_ctime stats + utcoffset h (st_ctime stats)).
    pose proof (civil_from_days_fields (secs / 86400)) as Hc.
    destruct (civil_from_days (secs / 86400)) as [[y m] d]. cbn [fst snd] in Hc.
    cbn [tm_mon tm_mday tm_hour tm_min].
    pose proof (Z.mod_pos_bound secs 86400 ltac:(lia)) as Hrem.
    split; [lia|]. split; [lia|].
    split; Z.to_euclidean_division_equations; lia. }
  destruct Hfields as [Hmon [Hday [Hhour Hmin]]].
  rewrite !length_append.
  rewrite !two_digits_length, four_digits_length by lia. reflexivity.
Qed.

Lemma print_mod_time_width_witness :
  String.length (print_mod_time utc_linux (plain_stat 33188 12 0 86400)) = 16%nat.
Proof.
  apply (print_mod_time_width utc_linux (plain_stat 33188 12 0 86400)).
  vm_compute. split; discriminate.
Defined.

(** X20.  A size below the base is shown as it is: every size from 1 to
    999 on the decimal ladder, and from 1 to 1023 on the binary one, is
    printed as the number itself, [.0] and the unit [B]. *)
Theorem calculate_size_bytes :
  forall size,
    (0 < size < 1000 -> calculate_size size UNITS_1000 = Ret (str_int size ++ ".0 B"))
    /\ (0 < size < 1024 -> calculate_size size UNITS_1024 = Ret (str_int size ++ ".0 B")).
Proof.
  intro size. split; intro Hsize.
  - pose proof (Z_range_forall
                  (fun n => match calculate_size n UNITS_1000 with
                            | Ret s => String.eqb s (str_int n ++ ".0 B")
                            | Raise _ => false
                            end) 1 999 ltac:(vm_compute; reflexivity) size ltac:(lia)) as H.
    cbv beta in H. destruct (calculate_size size UNITS_1000); [|discriminate].
    apply String.eqb_eq in H. subst. reflexivity.
  - pose proof (Z_range_forall
                  (fun n => match calculate_size n UNITS_1024 with
                            | Ret s => String.eqb s (str_int n ++ ".0 B")
                            | Raise _ => false
                            end) 1 1023 ltac:(vm_compute; reflexivity) size ltac:(lia)) as H.
    cbv beta in H. destruct (calculate_size size UNITS_1024); [|discriminate].
    apply String.eqb_eq in H. subst. reflexivity.
Qed.

(** ** The rows of long mode *)

(** Every row of [long_rows] carries the path, the identity cells, the
    size, the time and the inode it was given, at their places. *)
Lemma long_rows_cells pathname n stats size mod_time inode usr_grp gid_uid data :
  outcome (long_rows pathname n stats size mod_time inode usr_grp gid_uid) = Ret data ->
  forall row, In row data ->
    nth_error row 0 = Some (CStr pathname)
    /\ nth_error row 2 = Some (CStr (last3 (oct (st_mode stats))))
    /\ nth_error row 3 = Some (CStr usr_grp)
    /\ nth_error row 4 = Some gid_uid
    /\ nth_error row 5 = Some (cell_of size)
    /\ nth_error row 6 = Some (CStr mod_time)
    /\ nth_error row 7 = Some (CInt inode)
    /\ List.length row = 9%nat.
Proof.
  unfold long_rows. destruct (isdir pathname n).
  { rewrite count_file_spec, bind_run. cbn [outcome ret snd]. intros H; injection H as <-.
    intros row [<-|[]]. repeat split. }
  destruct (isfile pathname n).
  { unfold line_count.
    destruct (open_text pathname n); cbn [bind ret raise print outcome snd];
      intro H; try discriminate; injection H as <-; intros row [<-|[]]; repeat split. }
  destruct (islink n).
  { destruct n; cbn [readlink bind ret raise outcome snd]; intro H; try discriminate;
      injection H as <-; intros row [<-|[]]; repeat split. }
  cbn [ret outcome snd]. intro H; injection H as <-. intros row [].
Qed.

(** What [long_mod] prints besides lines is one table, made of the headers
    and of the rows of [long_rows] for the identity of the platform. *)
Lemma long_mod_tables h pathname n hs data :
  In (Table hs data) (output (long_mod h pathname n)) ->
  hs = headers
  /\ exists stats size,
       os_stat pathname n = Done stats
       /\ (data = []
           \/ exists usr_grp gid_uid,
                outcome (long_rows pathname n stats size (ctime h (st_mtime stats))
                                   (st_ino stats) usr_grp gid_uid) = Ret data
                /\ ((system h = "Windows" /\ gid_uid = CNone
                     /\ exists user_name group_name,
                          wmi h = Some (user_name, group_name)
                          /\ usr_grp = user_name ++ " / " ++ group_name)
                    \/ (system h = "Linux"
                        /\ exists group_name user_name pw_uid pw_gid,
                             getgrgid h (st_gid stats) = Some group_name
                             /\ getpwuid h (st_uid stats) = Some (user_name, pw_uid, pw_gid)
                             /\ usr_grp = user_name ++ " / " ++ group_name
                             /\ gid_uid = CStr (str_int pw_gid ++ " / " ++ str_int pw_uid)))).
Proof.
  intro Hin.
  pose (P := fun ev : event =>
               match ev with
               | Stdout _ => True
               | Table hs' data' =>
                   hs' = headers
                   /\ exists stats size,
                        os_stat pathname n = Done stats
                        /\ (data' = []
                            \/ exists usr_grp gid_uid,
                                 outcome (long_rows pathname n stats size
                                            (ctime h (st_mtime stats)) (st_ino stats)
                                            usr_grp gid_uid) = Ret data'
                                 /\ ((system h = "Windows" /\ gid_uid = CNone
                                      /\ exists user_name group_name,
                                           wmi h = Some (user_name, group_name)
                                           /\ usr_grp = user_name ++ " / " ++ group_name)
                                     \/ (system h = "Linux"
                                         /\ exists group_name user_name pw_uid pw_gid,
                                              getgrgid h (st_gid stats) = Some group_name
                                              /\ getpwuid h (st_uid stats)
                                                 = Some (user_name, pw_uid, pw_gid)
                                              /\ usr_grp = user_name ++ " / " ++ group_name
                                              /\ gid_uid
                                                 = CStr (str_int pw_gid ++ " / "
                                                         ++ str_int pw_uid))))
               end).
  assert (Pl : forall line, P (Stdout line)) by (intro; exact I).
  assert (Hall : Forall P (output (long_mod h pathname n))).
  { unfold long_mod. apply written_try; [|intros; constructor; [apply Pl|constructor]].
    apply written_bind.
    { unfold stat. destruct (os_stat pathname n); constructor. }
    intros stats Hstats. apply stat_outcome in Hstats.
    apply written_bind; [apply lines_stat_size; exact Pl|].
    intros size _.
    assert (Hrows : forall usr_grp gid_uid,
               Forall P (output (long_rows pathname n stats size
                                           (ctime h (st_mtime stats)) (st_ino stats)
                                           usr_grp gid_uid))).
    { intros. unfold long_rows. destruct (isdir pathname n).
      { apply written_bind; [apply lines_count_file; exact Pl|]. intros; constructor. }
      destruct (isfile pathname n).
      { apply written_bind; [apply lines_line_count; exact Pl|]. intros; constructor. }
      destruct (islink n); [|constructor].
      apply written_bind; [destruct n; constructor|]. intros; constructor. }
    apply written_bind.
    - destruct (String.eqb (system h) "Windows").
      { destruct (wmi h) as [[user_name group_name]|]; [apply Hrows|constructor]. }
      destruct (String.eqb (system h) "Linux"); [|constructor].
      destruct (getgrgid h (st_gid stats)); [|constructor].
      destruct (getpwuid h (st_uid stats)) as [[[user_name pw_uid] pw_gid]|];
        [apply Hrows|constructor].
    - intros data' Hdata. constructor; [|constructor]. cbn.
      split; [reflexivity|]. exists stats, size. split; [exact Hstats|].
      destruct (String.eqb_spec (system h) "Windows") as [Hwin|_].
      { destruct (wmi h) as [[user_name group_name]|] eqn:Hwmi; [|discriminate].
        right. eexists _, _. split; [exact Hdata|]. left. eauto 10. }
      destruct (String.eqb_spec (system h) "Linux") as [Hlinux|_].
      { destruct (getgrgid h (st_gid stats)) as [group_name|] eqn:Hgrp; [|discriminate].
        destruct (getpwuid h (st_uid stats)) as [[[user_name pw_uid] pw_gid]|] eqn:Hpw;
          [|discriminate].
        right. eexists _, _. split; [exact Hdata|]. right. split; [exact Hlinux|].
        exists group_name, user_name, pw_uid, pw_gid. auto. }
      cbn [ret outcome snd] in Hdata. injection Hdata as <-. left. reflexivity. }
  rewrite Forall_forall in Hall. exact (Hall _ Hin).
Qed.

(** X22.  The identity columns of long mode on Linux: [Usr/Grp] is the
    name of the owner and the name of the group of the file; [Gid/Uid] is
    the primary group id and the user id of the owner's entry in the user
    database, so the group id shown is the owner's, not the file's.  Every
    row has nine cells, the path first. *)
Theorem long_mod_linux_identity :
  forall h pathname n stats group_name user_name pw_uid pw_gid hs data row,
    system h = "Linux" ->
    os_stat pathname n = Done stats ->
    getgrgid h (st_gid stats) = Some group_name ->
    getpwuid h (st_uid stats) = Some (user_name, pw_uid, pw_gid) ->
    In (Table hs data) (output (long_mod h pathname n)) ->
    In row data ->
    List.length row = 9%nat
    /\ nth_error row 0 = Some (CStr pathname)
    /\ nth_error row 3 = Some (CStr (user_name ++ " / " ++ group_name))
    /\ nth_error row 4 = Some (CStr (str_int pw_gid ++ " / " ++ str_int pw_uid))
    /\ nth_error row 6 = Some (CStr (ctime h (st_mtime stats)))
    /\ nth_error row 7 = Some (CInt (st_ino stats)).
Proof.
  intros h pathname n stats group_name user_name pw_uid pw_gid hs data row
         Hsys Hstat Hgrp Hpw Hin Hrow.
  apply long_mod_tables in Hin.
  destruct Hin as [_ [stats' [size [Hstat' [->|[usr_grp [gid_uid [Hdata Hid]]]]]]]];
    [destruct Hrow|].
  rewrite Hstat in Hstat'. injection Hstat' as <-.
  destruct (long_rows_cells _ _ _ _ _ _ _ _ _ Hdata row Hrow)
    as [H0 [_ [H3 [H4 [_ [H6 [H7 Hlen]]]]]]].
  destruct Hid as [[Hwin _]|[_ [g [u [pu [pg [Hg [Hp [-> ->]]]]]]]]].
  { rewrite Hsys in Hwin. discriminate. }
  rewrite Hgrp in Hg. injection Hg as <-.
  rewrite Hpw in Hp. injection Hp as <- <- <-.
  auto 10.
Qed.

(** X23.  On Windows the [Gid/Uid] cell of every row is empty, and
    [Usr/Grp] is the user and the domain of the session, whoever owns the
    file. *)
Theorem long_mod_windows_identity :
  forall h pathname n user_name group_name hs data row,
    system h = "Windows" ->
    wmi h = Some (user_name, group_name) ->
    In (Table hs data) (output (long_mod h pathname n)) ->
    In row data ->
    nth_error row 3 = Some (CStr (user_name ++ " / " ++ group_name))
    /\ nth_error row 4 = Some CNone.
Proof.
  intros h pathname n user_name group_name hs data row Hsys Hwmi Hin Hrow.
  apply long_mod_tables in Hin.
  destruct Hin as [_ [stats [size [Hstat [->|[usr_grp [gid_uid [Hdata Hid]]]]]]]];
    [destruct Hrow|].
  destruct (long_rows_cells _ _ _ _ _ _ _ _ _ Hdata row Hrow)
    as [_ [_ [H3 [H4 _]]]].
  destruct Hid as [[_ [-> [u [g [Hw ->]]]]]|[Hlinux _]].
  - rewrite Hwmi in Hw. injection Hw as <- <-. auto.
  - rewrite Hsys in Hlinux. discriminate.
Qed.


Lemma long_mod_linux_identity_witness :
  List.length notes_row_linux = 9%nat
  /\ nth_error notes_row_linux 0 = Some (CStr "notes.txt")
  /\ nth_error notes_row_linux 3 = Some (CStr ("alice" ++ " / " ++ "users"))
  /\ nth_error notes_row_linux 4 = Some (CStr (str_int 1000 ++ " / " ++ str_int 1000))
  /\ nth_error notes_row_linux 6
     = Some (CStr (ctime utc_linux (st_mtime (plain_stat 33188 12 0 0))))
  /\ nth_error notes_row_linux 7 = Some (CInt (st_ino (plain_stat 33188 12 0 0))).
Proof.
  apply (long_mod_linux_identity utc_linux "notes.txt" notes_txt (plain_stat 33188 12 0 0)
           "users" "alice" 1000 1000 headers [notes_row_linux] notes_row_linux);
    try reflexivity.
  - vm_compute. left. reflexivity.
  - left. reflexivity.
Defined.

Lemma long_mod_windows_identity_witness :
  nth_error notes_row_windows 3 = Some (CStr ("bob" ++ " / " ++ "OFFICE"))
  /\ nth_error notes_row_windows 4 = Some CNone.
Proof.
  apply (long_mod_windows_identity windows_host "notes.txt" notes_txt "bob" "OFFICE"
           headers [notes_row_windows] notes_row_windows);
    try reflexivity.
  - vm_compute. left. reflexivity.
  - left. reflexivity.
Defined.

Lemma stat_size_missing_path_witness :
  stat_size "nowhere" Missing 1000 = ([Stdout "Error: Path does not exist."], Ret None).
Proof.
  apply (proj1 stat_size_missing_path "nowhere" Missing 1000 (enoent "nowhere")).
  reflexivity.
Defined.

Lemma calculate_size_bytes_witness :
  calculate_size 512 UNITS_1000 = Ret (str_int 512 ++ ".0 B").
Proof. apply (proj1 (calculate_size_bytes 512)). lia. Defined.
